(** * pulumi-ecs-fargate-poc: the deployment program of [main.go]

    A shallow embedding of the Pulumi program that provisions an ECS Fargate
    service behind a load balancer, and the properties of its declaration
    pass.

    - The library functions the program applies to its data are modelled
      after the Go distribution: [base64.StdEncoding.DecodeString],
      [strings.Split], [fmt.Sprintf] with the verb [%q] (that is
      [strconv.Quote], with [utf8.DecodeRuneInString]).
    - The Pulumi SDK is modelled by its interface: a resource constructor
      sends a declaration to the engine and returns a handle or an error;
      an output is a deferred value, transformed with [ApplyT].
    - The program itself, [main] and its helper functions, is written in a
      monad that threads the context (the events so far) and stops at the
      first error that the code tests.
    - The container definition document is judged as its consumer reads
      it: by a reader of JSON.

    Go strings are byte sequences: they are modelled as [string], whose
    characters are the 8-bit [ascii].  Go's [(value, error)] returns are
    modelled by [result]. *)

From Stdlib Require Import String Ascii List NArith ZArith Bool Lia.
Import ListNotations.

Local Open Scope string_scope.
Local Open Scope N_scope.

Set Warnings "-register-all".

(** ** Errors and results *)

(** Go's [error] values the program can observe: [base64.CorruptInputError]
    carries the offset of the offending byte; every error that comes back
    from the provisioning engine or from a provider call is opaque to the
    program and carried as is. *)
Inductive error : Type :=
| CorruptInputError (offset : Z)
| EngineError (msg : string).

Inductive result (A : Type) : Type :=
| Ok (a : A)
| Err (e : error).

Arguments Ok {A} a.
Arguments Err {A} e.

Definition result_map {A B : Type} (f : A -> B) (r : result A) : result B :=
  match r with
  | Ok a => Ok (f a)
  | Err e => Err e
  end.

Definition result_bind {A B : Type} (r : result A) (k : A -> result B) : result B :=
  match r with
  | Ok a => k a
  | Err e => Err e
  end.

(** ** Bytes *)

Definition byte_val (c : ascii) : N := N_of_ascii c.

(** Go's conversion [byte(x)] of an unsigned integer keeps the low 8 bits. *)
Definition to_byte (x : N) : ascii := ascii_of_N (N.land x 255).

Definition quote_char : ascii := "034"%char.
Definition backslash : ascii := "\"%char.
Definition LF : ascii := "010"%char.
Definition CR : ascii := "013"%char.
Definition TAB : ascii := "009"%char.

(** ** encoding/base64, [StdEncoding] *)

Module Base64.

(** The standard alphabet of RFC 4648 and the padding character. *)
Definition encodeStd : string :=
  "ABCDEFGHIJKLMNOPQRSTUVWXYZabcdefghijklmnopqrstuvwxyz0123456789+/".

Definition padChar : ascii := "="%char.


Fixpoint index_from (c : ascii) (alphabet : string) (i : N) : N :=
  match alphabet with
  | EmptyString => 255
  | String d rest => if Ascii.eqb c d then i else index_from c rest (i + 1)
  end.

(** [enc.decodeMap[c]]: the position of [c] in the alphabet, [0xff] for a
    byte outside it. *)
Definition decodeMap (c : ascii) : N := index_from c encodeStd 0.




Definition is_newline (c : ascii) : bool := Ascii.eqb c LF || Ascii.eqb c CR.

(** [for si < len(src) && (src[si] == '\n' || src[si] == '\r') { si++ }] *)
Fixpoint skip_newlines (src : string) (si : Z) : string * Z :=
  match src with
  | String c rest => if is_newline c then skip_newlines rest (si + 1) else (src, si)
  | EmptyString => (src, si)
  end.

(** The end of [decodeQuantum]: the four 6-bit digits of [dbuf] (missing ones
    are zero) make a 24-bit value, of which [dlen - 1] bytes are written. *)
Definition dbuf_val (d0 d1 d2 d3 : N) : N :=
  N.lor (N.lor (N.lor (N.shiftl d0 18) (N.shiftl d1 12)) (N.shiftl d2 6)) d3.

Definition quantum_bytes (dlen : nat) (val : N) : string :=
  match dlen with
  | 4%nat => String (to_byte (N.shiftr val 16)) (String (to_byte (N.shiftr val 8))
               (String (to_byte (N.shiftr val 0)) EmptyString))
  | 3%nat => String (to_byte (N.shiftr val 16)) (String (to_byte (N.shiftr val 8)) EmptyString)
  | 2%nat => String (to_byte (N.shiftr val 16)) EmptyString
  | _ => EmptyString
  end.

(** The branch of [decodeQuantum] taken when the padding character is read
    in slot [j = length dbuf]; [rest] is the input after it and [si] its
    offset.  Trailing bytes after the padding make the call fail (the bytes
    written so far are then of no use to the caller, which drops them). *)
Definition decode_padding (dbuf : list N) (rest : string) (si : Z) : result string :=
  match dbuf with
  | [] | [_] => Err (CorruptInputError (si - 1))
  | [d0; d1] =>
      let '(rest1, si1) := skip_newlines rest si in
      match rest1 with
      | EmptyString => Err (CorruptInputError si1)
      | String c rest2 =>
          if negb (Ascii.eqb c padChar) then Err (CorruptInputError (si1 - 1))
          else
            let '(rest3, si3) := skip_newlines rest2 (si1 + 1) in
            match rest3 with
            | EmptyString => Ok (quantum_bytes 2 (dbuf_val d0 d1 0 0))
            | String _ _ => Err (CorruptInputError si3)
            end
      end
  | [d0; d1; d2] =>
      let '(rest3, si3) := skip_newlines rest si in
      match rest3 with
      | EmptyString => Ok (quantum_bytes 3 (dbuf_val d0 d1 d2 0))
      | String _ _ => Err (CorruptInputError si3)
      end
  | _ => Err (CorruptInputError (si - 1))
  end.

(** [Decode]'s loop over [decodeQuantum], one input byte at a time: [src] is
    the input from offset [si] on, [dbuf] the digits read for the current
    quantum ([j = length dbuf < 4]).  Line breaks are skipped; a byte outside
    the alphabet that is neither a line break nor padding is corrupt input;
    input that ends inside a quantum is corrupt (the encoding is padded). *)
Fixpoint decode_from (src : string) (si : Z) (dbuf : list N) : result string :=
  match src with
  | EmptyString =>
      match dbuf with
      | [] => Ok EmptyString
      | _ => Err (CorruptInputError (si - Z.of_nat (length dbuf)))
      end
  | String c rest =>
      let out := decodeMap c in
      if negb (N.eqb out 255) then
        match dbuf with
        | [d0; d1; d2] =>
            result_map (append (quantum_bytes 4 (dbuf_val d0 d1 d2 out)))
                       (decode_from rest (si + 1) [])
        | _ => decode_from rest (si + 1) (dbuf ++ [out])%list
        end
      else if is_newline c then decode_from rest (si + 1) dbuf
      else if negb (Ascii.eqb c padChar) then Err (CorruptInputError si)
      else decode_padding dbuf rest (si + 1)
  end.

(** [base64.StdEncoding.DecodeString] *)
Definition DecodeString (s : string) : result string := decode_from s 0 [].

End Base64.

(** ** strings.Split *)

(** [strings.Split(s, sep)] for a separator of one byte: the substrings
    between the separators, all of them; a string without the separator is
    returned as the only element. *)
Fixpoint Split (s : string) (sep : ascii) : list string :=
  match s with
  | EmptyString => [EmptyString]
  | String c rest =>
      if Ascii.eqb c sep then EmptyString :: Split rest sep
      else
        match Split rest sep with
        | part :: parts => String c part :: parts
        | [] => [String c EmptyString]
        end
  end.

(** ** unicode/utf8 *)

Module Utf8.

Definition RuneError : N := 0xFFFD.
Definition RuneSelf : N := 0x80.
Definition MaxRune : N := 0x10FFFF.
Definition surrogateMin : N := 0xD800.
Definition surrogateMax : N := 0xDFFF.

(** [first[s0]]: information about the first byte of an encoding.  The low
    three bits are the length of the sequence, the high four bits index
    [acceptRanges]; [as = 0xF0] marks ASCII and [xx = 0xF1] an invalid byte. *)
Definition first (s0 : N) : N :=
  if s0 <? 0x80 then 0xF0
  else if s0 <? 0xC2 then 0xF1
  else if s0 <? 0xE0 then 0x02
  else if s0 =? 0xE0 then 0x13
  else if s0 <? 0xED then 0x03
  else if s0 =? 0xED then 0x23
  else if s0 <? 0xF0 then 0x03
  else if s0 =? 0xF0 then 0x34
  else if s0 <? 0xF4 then 0x04
  else if s0 =? 0xF4 then 0x44
  else 0xF1.

(** [acceptRanges[i]]: the range [(lo, hi)] of valid second bytes. *)
Definition acceptRanges (i : N) : N * N :=
  match i with
  | 0 => (0x80, 0xBF)
  | 1 => (0xA0, 0xBF)
  | 2 => (0x80, 0x9F)
  | 3 => (0x90, 0xBF)
  | 4 => (0x80, 0x8F)
  | _ => (0, 0)
  end.

Definition continuation (b : N) : bool := (0x80 <=? b) && (b <=? 0xBF).

(** [utf8.DecodeRuneInString]: the first rune of [s] and its width in bytes;
    [(RuneError, 1)] for an encoding that is invalid or cut short. *)
Definition DecodeRuneInString (s : string) : N * nat :=
  match s with
  | EmptyString => (RuneError, 0%nat)
  | String c0 rest0 =>
      let s0 := byte_val c0 in
      let x := first s0 in
      if 0xF0 <=? x then
        (* rune(x) << 31 >> 31 is all ones exactly when x is odd, that is xx *)
        if N.odd x then (RuneError, 1%nat) else (s0, 1%nat)
      else
        let sz := N.land x 7 in
        let '(lo, hi) := acceptRanges (N.shiftr x 4) in
        if N.of_nat (String.length s) <? sz then (RuneError, 1%nat)
        else
          match rest0 with
          | EmptyString => (RuneError, 1%nat)
          | String c1 rest1 =>
              let s1 := byte_val c1 in
              if (s1 <? lo) || (hi <? s1) then (RuneError, 1%nat)
              else if sz <=? 2 then
                (N.lor (N.shiftl (N.land s0 0x1F) 6) (N.land s1 0x3F), 2%nat)
              else
                match rest1 with
                | EmptyString => (RuneError, 1%nat)
                | String c2 rest2 =>
                    let s2 := byte_val c2 in
                    if negb (continuation s2) then (RuneError, 1%nat)
                    else if sz <=? 3 then
                      (N.lor (N.lor (N.shiftl (N.land s0 0x0F) 12)
                                    (N.shiftl (N.land s1 0x3F) 6))
                             (N.land s2 0x3F), 3%nat)
                    else
                      match rest2 with
                      | EmptyString => (RuneError, 1%nat)
                      | String c3 _ =>
                          let s3 := byte_val c3 in
                          if negb (continuation s3) then (RuneError, 1%nat)
                          else
                            (N.lor (N.lor (N.lor (N.shiftl (N.land s0 0x07) 18)
                                                 (N.shiftl (N.land s1 0x3F) 12))
                                          (N.shiftl (N.land s2 0x3F) 6))
                                   (N.land s3 0x3F), 4%nat)
                      end
                end
          end
  end.

(** [utf8.ValidRune] *)
Definition ValidRune (r : N) : bool :=
  (r <? surrogateMin) || ((surrogateMax <? r) && (r <=? MaxRune)).

(** The continuation byte [tx | byte(x)&maskx]. *)
Definition cont_byte (x : N) : ascii :=
  ascii_of_N (N.lor 0x80 (N.land (N.land x 255) 0x3F)).

(** [utf8.AppendRune]: the UTF-8 encoding of [r]; a surrogate or a value
    beyond [MaxRune] is encoded as [RuneError]. *)
Definition EncodeRune (r : N) : string :=
  if r <=? 0x7F then String (to_byte r) EmptyString
  else if r <=? 0x7FF then
    String (ascii_of_N (N.lor 0xC0 (N.land (N.shiftr r 6) 255)))
      (String (cont_byte r) EmptyString)
  else
    let r3 := if (MaxRune <? r) || ((surrogateMin <=? r) && (r <=? surrogateMax))
              then Some RuneError
              else if r <=? 0xFFFF then Some r else None in
    match r3 with
    | Some r' =>
        String (ascii_of_N (N.lor 0xE0 (N.land (N.shiftr r' 12) 255)))
          (String (cont_byte (N.shiftr r' 6)) (String (cont_byte r') EmptyString))
    | None =>
        String (ascii_of_N (N.lor 0xF0 (N.land (N.shiftr r 18) 255)))
          (String (cont_byte (N.shiftr r 12))
            (String (cont_byte (N.shiftr r 6)) (String (cont_byte r) EmptyString)))
    end.

End Utf8.

(** ** strconv.Quote and fmt.Sprintf *)

Section Formatting.

(** [strconv.IsPrint] decides runes above Latin-1 by binary search in the
    tables [isPrint16], [isNotPrint16], [isPrint32] and [isNotPrint32] of the
    Go distribution.  The tables are not part of the repository: the
    development is carried out for an arbitrary table. *)
Variable isPrintTable : N -> bool.

(** [strconv.IsPrint] *)
Definition IsPrint (r : N) : bool :=
  if r <=? 0xFF then
    if (0x20 <=? r) && (r <=? 0x7E) then true
    else if (0xA1 <=? r) && (r <=? 0xFF) then negb (r =? 0xAD)
    else false
  else isPrintTable r.

Definition lowerhex : string := "0123456789abcdef".

Definition hex_at (i : N) : ascii :=
  match String.get (N.to_nat i) lowerhex with
  | Some c => c
  | None => zero
  end.

(** [for s := top; s >= 0; s -= 4 { buf = append(buf, lowerhex[r>>uint(s)&0xF]) }],
    with [top = 4 * (digits - 1)]. *)
Fixpoint hex_digits (digits : nat) (r : N) : string :=
  match digits with
  | O => EmptyString
  | S d => String (hex_at (N.land (N.shiftr r (4 * N.of_nat d)) 0xF)) (hex_digits d r)
  end.

(** [strconv.appendEscapedRune] with the double quote as [quote],
    [ASCIIonly = false] and [graphicOnly = false], as [strconv.Quote] calls
    it. *)
Definition appendEscapedRune (r : N) : string :=
  if (r =? byte_val quote_char) || (r =? byte_val backslash) then
    String backslash (String (to_byte r) EmptyString)
  else if IsPrint r then Utf8.EncodeRune r
  else
    match r with
    | 7 => "\a"
    | 8 => "\b"
    | 12 => "\f"
    | 10 => "\n"
    | 13 => "\r"
    | 9 => "\t"
    | 11 => "\v"
    | _ =>
        if (r <? 0x20) || (r =? 0x7F) then
          "\x" ++ String (hex_at (N.shiftr (N.land r 255) 4))
                    (String (hex_at (N.land (N.land r 255) 0xF)) EmptyString)
        else if negb (Utf8.ValidRune r) then "\u" ++ hex_digits 4 Utf8.RuneError
        else if r <? 0x10000 then "\u" ++ hex_digits 4 r
        else "\U" ++ hex_digits 8 r
    end.

(** The loop of [strconv.appendQuotedWith].  The Go loop drops [width] bytes
    after each rune ([s = s[width:]]); here the bytes of a rune after its
    first are passed over one at a time, [skip] counting those still to
    pass. *)
Fixpoint quote_loop (s : string) (skip : nat) : string :=
  match s with
  | EmptyString => EmptyString
  | String c rest =>
      match skip with
      | S k => quote_loop rest k
      | O =>
          let '(r, width) :=
            if Utf8.RuneSelf <=? byte_val c then Utf8.DecodeRuneInString s
            else (byte_val c, 1%nat) in
          let piece :=
            if Nat.eqb width 1 && (r =? Utf8.RuneError) then
              "\x" ++ String (hex_at (N.shiftr (byte_val c) 4))
                        (String (hex_at (N.land (byte_val c) 0xF)) EmptyString)
            else appendEscapedRune r in
          piece ++ quote_loop rest (width - 1)
      end
  end.

(** [strconv.Quote]: a double-quoted Go string literal for [s]. *)
Definition Quote (s : string) : string :=
  String quote_char (quote_loop s 0 ++ String quote_char EmptyString).

(** [fmt.Sprintf] on string operands, for formats made of literal text, [%%]
    and the verb [%q] without flags ([fmtQ] then calls [strconv.AppendQuote]).
    A [%q] without operand prints [%!q(MISSING)].  Other verbs do not occur in
    the program's format; their text is kept as it stands. *)
Fixpoint Sprintf (format : string) (args : list string) : string :=
  match format with
  | EmptyString => EmptyString
  | String c rest =>
      if Ascii.eqb c "%" then
        match rest with
        | String v rest' =>
            if Ascii.eqb v "q" then
              match args with
              | a :: args' => Quote a ++ Sprintf rest' args'
              | [] => "%!q(MISSING)" ++ Sprintf rest' []
              end
            else if Ascii.eqb v "%" then String "%" (Sprintf rest' args)
            else String c (Sprintf rest args)
        | EmptyString => "%!(NOVERB)"
        end
      else String c (Sprintf rest args)
  end.

End Formatting.

(** ** The container definition document as its consumer reads it *)

(** The task definition's [ContainerDefinitions] input is a JSON document
    (RFC 8259).  [Json] is a reader for the documents the program can
    produce: arrays, objects, strings with all of JSON's escapes, the three
    literals, and integer numbers (a fraction or an exponent is refused: the
    documents carry port numbers only). *)
Module Json.

Inductive value : Type :=
| JNull
| JBool (b : bool)
| JNumber (n : Z)
| JString (s : string)
| JArray (items : list value)
| JObject (members : list (string * value)).

Definition is_ws (c : ascii) : bool :=
  Ascii.eqb c " " || Ascii.eqb c TAB || Ascii.eqb c LF || Ascii.eqb c CR.

Fixpoint skip_ws (s : string) : string :=
  match s with
  | String c rest => if is_ws c then skip_ws rest else s
  | EmptyString => s
  end.

(** What a string literal denotes, piece by piece: a byte of the text, or
    the 16-bit code unit of a [\uXXXX] escape. *)
Inductive item : Type :=
| Byte (c : ascii)
| Unit16 (u : N).

Definition hex_val (c : ascii) : option N :=
  let n := byte_val c in
  if (48 <=? n) && (n <=? 57) then Some (n - 48)
  else if (97 <=? n) && (n <=? 102) then Some (n - 87)
  else if (65 <=? n) && (n <=? 70) then Some (n - 55)
  else None.

Definition hex4 (h1 h2 h3 h4 : ascii) : option N :=
  match hex_val h1, hex_val h2, hex_val h3, hex_val h4 with
  | Some a, Some b, Some c, Some d => Some (((a * 16 + b) * 16 + c) * 16 + d)
  | _, _, _, _ => None
  end.

(** The escapes of one character after the backslash. *)
Definition simple_escape (e : ascii) : option ascii :=
  if Ascii.eqb e quote_char then Some quote_char
  else if Ascii.eqb e backslash then Some backslash
  else if Ascii.eqb e "/" then Some "/"%char
  else if Ascii.eqb e "b" then Some "008"%char
  else if Ascii.eqb e "f" then Some "012"%char
  else if Ascii.eqb e "n" then Some LF
  else if Ascii.eqb e "r" then Some CR
  else if Ascii.eqb e "t" then Some TAB
  else None.

Definition cons_item (i : item) (r : option (list item * string)) : option (list item * string) :=
  match r with
  | Some (items, rest) => Some (i :: items, rest)
  | None => None
  end.

(** A string literal after its opening quote, up to and including the
    closing quote.  Control characters must be escaped; an escape that JSON
    does not have is an error. *)
Fixpoint read_items (s : string) : option (list item * string) :=
  match s with
  | EmptyString => None
  | String c rest =>
      if Ascii.eqb c quote_char then Some ([], rest)
      else if Ascii.eqb c backslash then
        match rest with
        | EmptyString => None
        | String e rest1 =>
            match simple_escape e with
            | Some b => cons_item (Byte b) (read_items rest1)
            | None =>
                if Ascii.eqb e "u" then
                  match rest1 with
                  | String h1 (String h2 (String h3 (String h4 rest2))) =>
                      match hex4 h1 h2 h3 h4 with
                      | Some u => cons_item (Unit16 u) (read_items rest2)
                      | None => None
                      end
                  | _ => None
                  end
                else None
            end
        end
      else if byte_val c <? 0x20 then None
      else cons_item (Byte c) (read_items rest)
  end.

Definition is_high_surrogate (u : N) : bool := (0xD800 <=? u) && (u <=? 0xDBFF).
Definition is_low_surrogate (u : N) : bool := (0xDC00 <=? u) && (u <=? 0xDFFF).

(** The bytes of the items: code units are encoded in UTF-8, a surrogate
    pair as the one code point it stands for, a lone surrogate as U+FFFD. *)
Fixpoint items_bytes (items : list item) : string :=
  match items with
  | [] => EmptyString
  | Byte c :: rest => String c (items_bytes rest)
  | Unit16 hi :: rest =>
      match rest with
      | Unit16 lo :: rest' =>
          if is_high_surrogate hi && is_low_surrogate lo then
            Utf8.EncodeRune (0x10000 + (hi - 0xD800) * 1024 + (lo - 0xDC00))
              ++ items_bytes rest'
          else Utf8.EncodeRune hi ++ items_bytes rest
      | _ => Utf8.EncodeRune hi ++ items_bytes rest
      end
  end.

Definition read_string (s : string) : option (string * string) :=
  match read_items s with
  | Some (items, rest) => Some (items_bytes items, rest)
  | None => None
  end.

Definition is_digit (c : ascii) : bool := (48 <=? byte_val c) && (byte_val c <=? 57).

Fixpoint read_digits (s : string) (acc : Z) (count : nat) : Z * nat * string :=
  match s with
  | String c rest =>
      if is_digit c then read_digits rest (acc * 10 + Z.of_N (byte_val c - 48))%Z (S count)
      else (acc, count, s)
  | EmptyString => (acc, count, s)
  end.

(** An integer: an optional minus sign, then [0] or a digit sequence that
    does not start with [0]. *)
Definition read_number (s : string) : option (Z * string) :=
  let '(negative, body) :=
    match s with
    | String c rest => if Ascii.eqb c "-" then (true, rest) else (false, s)
    | EmptyString => (false, s)
    end in
  let leading_zero :=
    match body with
    | String c _ => Ascii.eqb c "0"
    | EmptyString => false
    end in
  let '(n, count, rest) := read_digits body 0%Z 0%nat in
  let more :=
    match rest with
    | String c _ => Ascii.eqb c "." || Ascii.eqb c "e" || Ascii.eqb c "E"
    | EmptyString => false
    end in
  if Nat.eqb count 0 || (leading_zero && negb (Nat.eqb count 1)) || more then None
  else Some (if negative then (- n)%Z else n, rest).

Fixpoint read_literal (lit : string) (s : string) : option string :=
  match lit, s with
  | EmptyString, _ => Some s
  | String a lit', String b s' => if Ascii.eqb a b then read_literal lit' s' else None
  | String _ _, EmptyString => None
  end.

(** Values, by recursive descent; [fuel] bounds the number of nested calls
    and the length of the text is always enough. *)
Fixpoint read_value (fuel : nat) (s : string) {struct fuel} : option (value * string) :=
  match fuel with
  | O => None
  | S fuel' =>
      match skip_ws s with
      | EmptyString => None
      | String c rest as s' =>
          if Ascii.eqb c "[" then
            match skip_ws rest with
            | String d rest' =>
                if Ascii.eqb d "]" then Some (JArray [], rest')
                else
                  match read_elements fuel' rest with
                  | Some (items, rest'') => Some (JArray items, rest'')
                  | None => None
                  end
            | EmptyString => None
            end
          else if Ascii.eqb c "{" then
            match skip_ws rest with
            | String d rest' =>
                if Ascii.eqb d "}" then Some (JObject [], rest')
                else
                  match read_members fuel' rest with
                  | Some (members, rest'') => Some (JObject members, rest'')
                  | None => None
                  end
            | EmptyString => None
            end
          else if Ascii.eqb c quote_char then
            match read_string rest with
            | Some (str, rest') => Some (JString str, rest')
            | None => None
            end
          else if Ascii.eqb c "t" then option_map (pair (JBool true)) (read_literal "true" s')
          else if Ascii.eqb c "f" then option_map (pair (JBool false)) (read_literal "false" s')
          else if Ascii.eqb c "n" then option_map (pair JNull) (read_literal "null" s')
          else
            match read_number s' with
            | Some (n, rest') => Some (JNumber n, rest')
            | None => None
            end
      end
  end

with read_elements (fuel : nat) (s : string) {struct fuel} : option (list value * string) :=
  match fuel with
  | O => None
  | S fuel' =>
      match read_value fuel' s with
      | Some (v, rest) =>
          match skip_ws rest with
          | String c rest' =>
              if Ascii.eqb c "," then
                match read_elements fuel' rest' with
                | Some (vs, rest'') => Some (v :: vs, rest'')
                | None => None
                end
              else if Ascii.eqb c "]" then Some ([v], rest')
              else None
          | EmptyString => None
          end
      | None => None
      end
  end

with read_members (fuel : nat) (s : string) {struct fuel} : option (list (string * value) * string) :=
  match fuel with
  | O => None
  | S fuel' =>
      match skip_ws s with
      | String q after_quote =>
          if Ascii.eqb q quote_char then
            match read_string after_quote with
            | Some (key, after_key) =>
                match skip_ws after_key with
                | String colon after_colon =>
                    if Ascii.eqb colon ":" then
                      match read_value fuel' after_colon with
                      | Some (v, rest) =>
                          match skip_ws rest with
                          | String c rest' =>
                              if Ascii.eqb c "," then
                                match read_members fuel' rest' with
                                | Some (ms, rest'') => Some ((key, v) :: ms, rest'')
                                | None => None
                                end
                              else if Ascii.eqb c "}" then Some ([(key, v)], rest')
                              else None
                          | EmptyString => None
                          end
                      | None => None
                      end
                    else None
                | EmptyString => None
                end
            | None => None
            end
          else None
      | EmptyString => None
      end
  end.

(** A document is one value, with white space around it and nothing else. *)
Definition parse (s : string) : option value :=
  match read_value (String.length s) s with
  | Some (v, rest) =>
      match skip_ws rest with
      | EmptyString => Some v
      | String _ _ => None
      end
  | None => None
  end.

Fixpoint field (key : string) (members : list (string * value)) : option value :=
  match members with
  | [] => None
  | (k, v) :: rest => if String.eqb k key then Some v else field key rest
  end.

(** A scanner that knows nothing of JSON's escapes but that a backslash
    takes the next byte with it: the text after the closing quote of the
    literal whose opening quote was just read. *)
Fixpoint literal_end (s : string) : option string :=
  match s with
  | EmptyString => None
  | String c rest =>
      if Ascii.eqb c quote_char then Some rest
      else if Ascii.eqb c backslash then
        match rest with
        | String _ rest' => literal_end rest'
        | EmptyString => None
        end
      else literal_end rest
  end.

End Json.

(** The container definitions as the task definition takes them: of each
    container its name, its image and its port mappings. *)
Record PortMapping : Type := {
  containerPort : Z;
  hostPort : Z;
  protocol : string;
}.

Record ContainerDefinition : Type := {
  cd_name : string;
  cd_image : string;
  cd_portMappings : list PortMapping;
}.

Fixpoint traverse {A B : Type} (f : A -> option B) (l : list A) : option (list B) :=
  match l with
  | [] => Some []
  | a :: rest =>
      match f a, traverse f rest with
      | Some b, Some bs => Some (b :: bs)
      | _, _ => None
      end
  end.

Definition port_mapping (v : Json.value) : option PortMapping :=
  match v with
  | Json.JObject ms =>
      match Json.field "containerPort" ms, Json.field "hostPort" ms, Json.field "protocol" ms with
      | Some (Json.JNumber c), Some (Json.JNumber h), Some (Json.JString p) =>
          Some {| containerPort := c; hostPort := h; protocol := p |}
      | _, _, _ => None
      end
  | _ => None
  end.

Definition container_definition (v : Json.value) : option ContainerDefinition :=
  match v with
  | Json.JObject ms =>
      match Json.field "name" ms, Json.field "image" ms, Json.field "portMappings" ms with
      | Some (Json.JString n), Some (Json.JString i), Some (Json.JArray pms) =>
          match traverse port_mapping pms with
          | Some mappings => Some {| cd_name := n; cd_image := i; cd_portMappings := mappings |}
          | None => None
          end
      | _, _, _ => None
      end
  | _ => None
  end.

(** The document read as a sequence of container definitions; [None] for a
    text that is not a JSON array of such objects. *)
Definition container_definitions (doc : string) : option (list ContainerDefinition) :=
  match Json.parse doc with
  | Some (Json.JArray items) => traverse container_definition items
  | _ => None
  end.

(** The bytes that [strconv.Quote] writes in a way JSON reads back: the
    printable ASCII characters, and the five control characters whose Go
    escapes are JSON escapes too (backspace, tab, line feed, form feed,
    carriage return). *)
Definition json_safe_byte (c : ascii) : bool :=
  let n := byte_val c in
  ((0x20 <=? n) && (n <=? 0x7E))
  || (n =? 8) || (n =? 9) || (n =? 10) || (n =? 12) || (n =? 13).

Fixpoint json_safe (s : string) : bool :=
  match s with
  | EmptyString => true
  | String c rest => json_safe_byte c && json_safe rest
  end.

Fixpoint no_colon (s : string) : bool :=
  match s with
  | EmptyString => true
  | String c rest => negb (Ascii.eqb c ":") && no_colon rest
  end.

(** ** The Pulumi SDK: resources, outputs, declarations *)

Module pulumi.

Inductive ResourceType : Type :=
| SecurityGroup
| Cluster
| Role
| RolePolicyAttachment
| LoadBalancer
| TargetGroup
| Listener
| Repository
| Image
| TaskDefinition
| Service.

(** The handle a declaration returns: the resource's type and the logical
    name it was declared under. *)
Record Resource : Type := { res_type : ResourceType; res_name : string }.

(** Deferred values.  [Pure] is a value known when the program runs
    ([pulumi.String], [pulumi.Int], [pulumi.Bool]); [Attr r p] is the output
    property [p] of the resource [r], known once [r] is realized; [ApplyT]
    is a transformation chained on an output, which may fail. *)
Inductive Output : Type -> Type :=
| Pure {A : Type} (a : A) : Output A
| Attr (r : Resource) (prop : string) : Output string
| ApplyT {A B : Type} (o : Output A) (f : A -> result B) : Output B.

Definition StringInput : Type := Output string.
Definition IntInput : Type := Output Z.
Definition BoolInput : Type := Output bool.
Definition StringArray : Type := list StringInput.
Definition StringArrayOutput : Type := Output (list string).

Definition String (s : string) : StringInput := Pure s.
Definition Int (n : Z) : IntInput := Pure n.
Definition Bool (b : bool) : BoolInput := Pure b.

(** [StringArrayOutput.Index]: the element at [i] when [i] is within
    bounds, the zero value of [string] otherwise. *)
Definition Index (o : StringArrayOutput) (i : Z) : StringInput :=
  ApplyT o (fun arr =>
    Ok (if (0 <=? i)%Z && (i <? Z.of_nat (length arr))%Z
        then nth (Z.to_nat i) arr EmptyString
        else EmptyString)).

(** The value of an output once the resources it reads are realized;
    [realized r p] is the value the provider gave to property [p] of [r]. *)
Fixpoint resolve (realized : Resource -> string -> string) {A : Type} (o : Output A) : result A :=
  match o with
  | Pure a => Ok a
  | Attr r p => Ok (realized r p)
  | ApplyT o' f => result_bind (resolve realized o') f
  end.

(** The values of an array of inputs. *)
Fixpoint resolve_all (realized : Resource -> string -> string) (l : list (Output string))
  : result (list string) :=
  match l with
  | [] => Ok []
  | o :: rest =>
      result_bind (resolve realized o) (fun v =>
      result_bind (resolve_all realized rest) (fun vs => Ok (v :: vs)))
  end.

(** The resources whose outputs an output reads. *)
Fixpoint refs {A : Type} (o : Output A) : list Resource :=
  match o with
  | Pure _ => []
  | Attr r _ => [r]
  | ApplyT o' _ => refs o'
  end.

Definition type_eqb (a b : ResourceType) : bool :=
  match a, b with
  | SecurityGroup, SecurityGroup | Cluster, Cluster | Role, Role
  | RolePolicyAttachment, RolePolicyAttachment | LoadBalancer, LoadBalancer
  | TargetGroup, TargetGroup | Listener, Listener | Repository, Repository
  | Image, Image | TaskDefinition, TaskDefinition | Service, Service => true
  | _, _ => false
  end.

Definition resource_eqb (a b : Resource) : bool :=
  type_eqb (res_type a) (res_type b) && String.eqb (res_name a) (res_name b).

End pulumi.

Import pulumi (Resource, Output, StringInput, IntInput, BoolInput, StringArray,
               StringArrayOutput, Attr, ApplyT).

(** Output properties of the resources, by the names of the Go fields. *)
Definition ID (r : Resource) : StringInput := Attr r "ID".
Definition Arn (r : Resource) : StringInput := Attr r "Arn".
Definition Name (r : Resource) : StringInput := Attr r "Name".
Definition DnsName (r : Resource) : StringInput := Attr r "DnsName".
Definition RegistryId (r : Resource) : StringInput := Attr r "RegistryId".
Definition RepositoryUrl (r : Resource) : StringInput := Attr r "RepositoryUrl".
Definition ImageName_of (r : Resource) : StringInput := Attr r "ImageName".

(** ** The providers' argument structures

    Field [X] of the Go structure [TArgs] is [T_X]; only the fields the
    program sets are kept. *)

(** *** ec2 *)

Record LookupVpcArgs : Type := { LookupVpc_Default : option bool }.
Record LookupVpcResult : Type := { LookupVpc_Id : string }.
Record GetSubnetIdsArgs : Type := { GetSubnetIds_VpcId : string }.
Record GetSubnetIdsResult : Type := { GetSubnetIds_Ids : list string }.

Record SecurityGroupIngressArgs : Type := {
  SecurityGroupIngress_Protocol : StringInput;
  SecurityGroupIngress_FromPort : IntInput;
  SecurityGroupIngress_ToPort : IntInput;
  SecurityGroupIngress_CidrBlocks : StringArray;
}.

Record SecurityGroupEgressArgs : Type := {
  SecurityGroupEgress_Protocol : StringInput;
  SecurityGroupEgress_FromPort : IntInput;
  SecurityGroupEgress_ToPort : IntInput;
  SecurityGroupEgress_CidrBlocks : StringArray;
}.

Record SecurityGroupArgs : Type := {
  SecurityGroup_VpcId : StringInput;
  SecurityGroup_Egress : list SecurityGroupEgressArgs;
  SecurityGroup_Ingress : list SecurityGroupIngressArgs;
}.

(** *** iam *)

Record RoleArgs : Type := { Role_AssumeRolePolicy : StringInput }.

Record RolePolicyAttachmentArgs : Type := {
  RolePolicyAttachment_Role : StringInput;
  RolePolicyAttachment_PolicyArn : StringInput;
}.

(** *** elasticloadbalancingv2 *)

Record LoadBalancerArgs : Type := {
  LoadBalancer_Subnets : StringArray;
  LoadBalancer_SecurityGroups : StringArray;
}.

Record TargetGroupArgs : Type := {
  TargetGroup_Port : IntInput;
  TargetGroup_Protocol : StringInput;
  TargetGroup_TargetType : StringInput;
  TargetGroup_VpcId : StringInput;
}.

Record ListenerDefaultActionArgs : Type := {
  ListenerDefaultAction_Type : StringInput;
  ListenerDefaultAction_TargetGroupArn : StringInput;
}.

Record ListenerArgs : Type := {
  Listener_LoadBalancerArn : StringInput;
  Listener_Port : IntInput;
  Listener_DefaultActions : list ListenerDefaultActionArgs;
}.

(** *** ecr *)

Record GetCredentialsArgs : Type := { GetCredentials_RegistryId : string }.
Record GetCredentialsResult : Type := { GetCredentials_AuthorizationToken : string }.

(** *** docker *)

Record DockerBuildArgs : Type := { DockerBuild_Context : StringInput }.

Record ImageRegistryArgs : Type := {
  ImageRegistry_Server : StringInput;
  ImageRegistry_Username : StringInput;
  ImageRegistry_Password : StringInput;
}.

Record ImageArgs : Type := {
  Image_Build : DockerBuildArgs;
  Image_ImageName : StringInput;
  Image_Registry : ImageRegistryArgs;
}.

(** *** ecs *)

Record TaskDefinitionArgs : Type := {
  TaskDefinition_Family : StringInput;
  TaskDefinition_Cpu : StringInput;
  TaskDefinition_Memory : StringInput;
  TaskDefinition_NetworkMode : StringInput;
  TaskDefinition_RequiresCompatibilities : StringArray;
  TaskDefinition_ExecutionRoleArn : StringInput;
  TaskDefinition_ContainerDefinitions : StringInput;
}.

Record ServiceNetworkConfigurationArgs : Type := {
  ServiceNetworkConfiguration_AssignPublicIp : BoolInput;
  ServiceNetworkConfiguration_Subnets : StringArray;
  ServiceNetworkConfiguration_SecurityGroups : StringArray;
}.

Record ServiceLoadBalancerArgs : Type := {
  ServiceLoadBalancer_TargetGroupArn : StringInput;
  ServiceLoadBalancer_ContainerName : StringInput;
  ServiceLoadBalancer_ContainerPort : IntInput;
}.

Record ServiceArgs : Type := {
  Service_Cluster : StringInput;
  Service_DesiredCount : IntInput;
  Service_LaunchType : StringInput;
  Service_TaskDefinition : StringInput;
  Service_NetworkConfiguration : option ServiceNetworkConfigurationArgs;
  Service_LoadBalancers : list ServiceLoadBalancerArgs;
}.

(** ** Declarations *)

(** The arguments of a declaration, by resource type.  The cluster is
    declared with [nil] arguments and the repository with an empty
    structure. *)
Inductive ResourceArgs : Type :=
| SecurityGroup_args (a : SecurityGroupArgs)
| Cluster_args
| Role_args (a : RoleArgs)
| RolePolicyAttachment_args (a : RolePolicyAttachmentArgs)
| LoadBalancer_args (a : LoadBalancerArgs)
| TargetGroup_args (a : TargetGroupArgs)
| Listener_args (a : ListenerArgs)
| Repository_args
| Image_args (a : ImageArgs)
| TaskDefinition_args (a : TaskDefinitionArgs)
| Service_args (a : ServiceArgs).

Definition type_of (args : ResourceArgs) : pulumi.ResourceType :=
  match args with
  | SecurityGroup_args _ => pulumi.SecurityGroup
  | Cluster_args => pulumi.Cluster
  | Role_args _ => pulumi.Role
  | RolePolicyAttachment_args _ => pulumi.RolePolicyAttachment
  | LoadBalancer_args _ => pulumi.LoadBalancer
  | TargetGroup_args _ => pulumi.TargetGroup
  | Listener_args _ => pulumi.Listener
  | Repository_args => pulumi.Repository
  | Image_args _ => pulumi.Image
  | TaskDefinition_args _ => pulumi.TaskDefinition
  | Service_args _ => pulumi.Service
  end.

(** One call of a resource constructor: the logical name, the arguments and
    the resources named by the option [pulumi.DependsOn]. *)
Record Declaration : Type := {
  decl_name : string;
  decl_args : ResourceArgs;
  decl_dependsOn : list Resource;
}.

Definition decl_resource (d : Declaration) : Resource :=
  {| pulumi.res_type := type_of (decl_args d); pulumi.res_name := decl_name d |}.

(** What the program does to its context, in order: a declaration with the
    engine's answer ([None] for success), or an export. *)
Inductive Event : Type :=
| Declared (d : Declaration) (outcome : option error)
| Exported (name : string) (v : StringInput).

(** What the program asks of the engine and of the provider: the three
    lookups and the registration of a declared resource. *)
Record Engine : Type := {
  LookupVpc : LookupVpcArgs -> result LookupVpcResult;
  GetSubnetIds : GetSubnetIdsArgs -> result GetSubnetIdsResult;
  GetCredentials : GetCredentialsArgs -> result GetCredentialsResult;
  RegisterResource : Declaration -> option error;
}.

(** A computation on the context [ctx]: it extends the list of events and
    returns a Go [(value, error)]. *)
Definition Program (A : Type) : Type := list Event -> list Event * result A.

Definition ret {A : Type} (a : A) : Program A := fun ctx => (ctx, Ok a).

Definition bind {A B : Type} (m : Program A) (k : A -> Program B) : Program B :=
  fun ctx =>
    match m ctx with
    | (ctx', Ok a) => k a ctx'
    | (ctx', Err e) => (ctx', Err e)
    end.

(** [v, err := f(...)] followed by [if err != nil { return ..., err }]. *)
Notation "x <- m ;; k" := (bind m (fun x => k))
  (at level 61, m at next level, right associativity).
Notation "' p <- m ;; k" := (bind m (fun x => let 'p := x in k))
  (at level 61, p pattern, m at next level, right associativity).

(** [v, err = f(...)] with no test of [err] after it: whatever [f] returns,
    the function goes on. *)
Definition unchecked {A : Type} (m : Program A) : Program (result A) :=
  fun ctx => let '(ctx', r) := m ctx in (ctx', Ok r).

(** ** The program *)

Definition SecurityGroupName : string := "web-sg".
Definition EcsClusterName : string := "app-cluster".
Definition TaskExecRoleName : string := "task-exec-role".
Definition TaskExecPolicyName : string := "task-exec-policy".
Definition EcrRepositoryName : string := "app-repo".
Definition EcsTaskName : string := "app-task".
Definition EcsServiceName : string := "app-service".
Definition ContainerName : string := "my-app".
Definition ImageName : string := "my-image".

Definition LoadBalancerName : string := "web-lb".
Definition LoadBalancerTargetGroupName : string := "web-tg".
Definition LoadBalancerListenerName : string := "web-listener".

Definition ReplicasCount : Z := 5.

(** The format of the container definition document, a raw string literal
    in the source: its line breaks and tabs are part of it. *)
Definition fmtstr : string :=
  let q := String quote_char EmptyString in
  let nl (tabs : nat) := String LF (String.concat EmptyString (repeat (String TAB EmptyString) tabs)) in
  "[{" ++ nl 4%nat
  ++ q ++ "name" ++ q ++ ": " ++ q ++ "my-app" ++ q ++ "," ++ nl 4%nat
  ++ q ++ "image" ++ q ++ ": %q," ++ nl 4%nat
  ++ q ++ "portMappings" ++ q ++ ": [{" ++ nl 5%nat
  ++ q ++ "containerPort" ++ q ++ ": 80," ++ nl 5%nat
  ++ q ++ "hostPort" ++ q ++ ": 80," ++ nl 5%nat
  ++ q ++ "protocol" ++ q ++ ": " ++ q ++ "tcp" ++ q ++ nl 4%nat
  ++ "}]" ++ nl 3%nat
  ++ "}]".

(** The assume-role policy of the task execution role, a raw string literal
    in the source. *)
Definition assumeRolePolicy : string :=
  let q := String quote_char EmptyString in
  let nl := String LF EmptyString in
  "{" ++ nl
  ++ "    " ++ q ++ "Version" ++ q ++ ": " ++ q ++ "2008-10-17" ++ q ++ "," ++ nl
  ++ "    " ++ q ++ "Statement" ++ q ++ ": [{" ++ nl
  ++ "        " ++ q ++ "Sid" ++ q ++ ": " ++ q ++ q ++ "," ++ nl
  ++ "        " ++ q ++ "Effect" ++ q ++ ": " ++ q ++ "Allow" ++ q ++ "," ++ nl
  ++ "        " ++ q ++ "Principal" ++ q ++ ": {" ++ nl
  ++ "            " ++ q ++ "Service" ++ q ++ ": " ++ q ++ "ecs-tasks.amazonaws.com" ++ q ++ nl
  ++ "        }," ++ nl
  ++ "        " ++ q ++ "Action" ++ q ++ ": " ++ q ++ "sts:AssumeRole" ++ q ++ nl
  ++ "    }]" ++ nl
  ++ "}".

Section Deployment.

Variable isPrintTable : N -> bool.
Variable engine : Engine.

(** A call of a provider function ([ec2.LookupVpc], [ec2.GetSubnetIds]):
    it declares nothing. *)
Definition invoke {A : Type} (r : result A) : Program A := fun ctx => (ctx, r).

(** A resource constructor: the declaration is sent to the engine; on
    success the caller gets the resource's handle. *)
Definition register (name : string) (args : ResourceArgs) (dependsOn : list Resource)
  : Program Resource :=
  fun ctx =>
    let d := {| decl_name := name; decl_args := args; decl_dependsOn := dependsOn |} in
    match RegisterResource engine d with
    | None => ((ctx ++ [Declared d None])%list, Ok (decl_resource d))
    | Some e => ((ctx ++ [Declared d (Some e)])%list, Err e)
    end.

Definition ec2_NewSecurityGroup (name : string) (args : SecurityGroupArgs) : Program Resource :=
  register name (SecurityGroup_args args) [].
Definition ecs_NewCluster (name : string) : Program Resource :=
  register name Cluster_args [].
Definition iam_NewRole (name : string) (args : RoleArgs) : Program Resource :=
  register name (Role_args args) [].
Definition iam_NewRolePolicyAttachment (name : string) (args : RolePolicyAttachmentArgs)
  : Program Resource :=
  register name (RolePolicyAttachment_args args) [].
Definition elb_NewLoadBalancer (name : string) (args : LoadBalancerArgs) : Program Resource :=
  register name (LoadBalancer_args args) [].
Definition elb_NewTargetGroup (name : string) (args : TargetGroupArgs) : Program Resource :=
  register name (TargetGroup_args args) [].
Definition elb_NewListener (name : string) (args : ListenerArgs) : Program Resource :=
  register name (Listener_args args) [].
Definition ecr_NewRepository (name : string) : Program Resource :=
  register name Repository_args [].
Definition docker_NewImage (name : string) (args : ImageArgs) : Program Resource :=
  register name (Image_args args) [].
Definition ecs_NewTaskDefinition (name : string) (args : TaskDefinitionArgs) : Program Resource :=
  register name (TaskDefinition_args args) [].
Definition ecs_NewService (name : string) (args : ServiceArgs) (dependsOn : list Resource)
  : Program Resource :=
  register name (Service_args args) dependsOn.

(** [ctx.Export] *)
Definition Export (name : string) (v : StringInput) : Program unit :=
  fun ctx => ((ctx ++ [Exported name v])%list, Ok tt).

Definition toPulumiStringArray (a : list string) : StringArray :=
  fold_left (fun res s => (res ++ [pulumi.String s])%list) a [].

Definition getDefaultVPC : Program LookupVpcResult :=
  let t := true in
  invoke (LookupVpc engine {| LookupVpc_Default := Some t |}).

Definition getUnrestrictedEgress : list SecurityGroupEgressArgs :=
  [ {| SecurityGroupEgress_Protocol := pulumi.String "-1";
       SecurityGroupEgress_FromPort := pulumi.Int 0;
       SecurityGroupEgress_ToPort := pulumi.Int 0;
       SecurityGroupEgress_CidrBlocks := [pulumi.String "0.0.0.0/0"] |} ].

Definition newSecurityGroup (vpc : LookupVpcResult) : Program Resource :=
  ec2_NewSecurityGroup SecurityGroupName
    {| SecurityGroup_VpcId := pulumi.String (LookupVpc_Id vpc);
       SecurityGroup_Egress := getUnrestrictedEgress;
       SecurityGroup_Ingress :=
         [ {| SecurityGroupIngress_Protocol := pulumi.String "tcp";
              SecurityGroupIngress_FromPort := pulumi.Int 80;
              SecurityGroupIngress_ToPort := pulumi.Int 80;
              SecurityGroupIngress_CidrBlocks := [pulumi.String "0.0.0.0/0"] |} ] |}.

Definition newTaskExecRole : Program Resource :=
  taskExecRole <- iam_NewRole TaskExecRoleName
    {| Role_AssumeRolePolicy := pulumi.String assumeRolePolicy |} ;;
  _ <- iam_NewRolePolicyAttachment TaskExecPolicyName
    {| RolePolicyAttachment_Role := Name taskExecRole;
       RolePolicyAttachment_PolicyArn :=
         pulumi.String "arn:aws:iam::aws:policy/service-role/AmazonECSTaskExecutionRolePolicy" |} ;;
  ret taskExecRole.

Definition newLoadBalancer (vpc : LookupVpcResult) (webSg : Resource)
  : Program (GetSubnetIdsResult * Resource * Resource * Resource) :=
  subnet <- invoke (GetSubnetIds engine {| GetSubnetIds_VpcId := LookupVpc_Id vpc |}) ;;
  webLb <- elb_NewLoadBalancer LoadBalancerName
    {| LoadBalancer_Subnets := toPulumiStringArray (GetSubnetIds_Ids subnet);
       LoadBalancer_SecurityGroups := [ID webSg] |} ;;
  webTg <- elb_NewTargetGroup LoadBalancerTargetGroupName
    {| TargetGroup_Port := pulumi.Int 80;
       TargetGroup_Protocol := pulumi.String "HTTP";
       TargetGroup_TargetType := pulumi.String "ip";
       TargetGroup_VpcId := pulumi.String (LookupVpc_Id vpc) |} ;;
  webListener <- elb_NewListener LoadBalancerListenerName
    {| Listener_LoadBalancerArn := Arn webLb;
       Listener_Port := pulumi.Int 80;
       Listener_DefaultActions :=
         [ {| ListenerDefaultAction_Type := pulumi.String "forward";
              ListenerDefaultAction_TargetGroupArn := Arn webTg |} ] |} ;;
  ret (subnet, webLb, webTg, webListener).

(** The function applied to the repository's registry id: fetch the
    credentials, decode the authorization token, cut it at the colons. *)
Definition repoCreds_of (rid : string) : result (list string) :=
  result_bind (GetCredentials engine {| GetCredentials_RegistryId := rid |}) (fun creds =>
  result_bind (Base64.DecodeString (GetCredentials_AuthorizationToken creds)) (fun data =>
  Ok (Split data ":"))).

(** The function applied to the name of the pushed image. *)
Definition containerDef_of (name : string) : result string :=
  Ok (Sprintf isPrintTable fmtstr [name]).

Definition pushImageAndGetContainerDef (repo : Resource) (dockerFilePath : string)
  : Program StringInput :=
  let repoCreds : StringArrayOutput := ApplyT (RegistryId repo) repoCreds_of in
  let repoUser := pulumi.Index repoCreds 0 in
  let repoPass := pulumi.Index repoCreds 1 in
  image <- docker_NewImage ImageName
    {| Image_Build := {| DockerBuild_Context := pulumi.String dockerFilePath |};
       Image_ImageName := RepositoryUrl repo;
       Image_Registry :=
         {| ImageRegistry_Server := RepositoryUrl repo;
            ImageRegistry_Username := repoUser;
            ImageRegistry_Password := repoPass |} |} ;;
  let containerDef : StringInput := ApplyT (ImageName_of image) containerDef_of in
  ret containerDef.

(** The function given to [pulumi.Run].  The error of [ecs.NewService] is
    assigned to [err] and not looked at: the export and [return nil]
    follow in any case. *)
Definition main : Program unit :=
  vpc <- getDefaultVPC ;;
  securityGroup <- newSecurityGroup vpc ;;
  cluster <- ecs_NewCluster EcsClusterName ;;
  taskExecRole <- newTaskExecRole ;;
  '(subnet, loadBalancer, targetGroup, webListener) <- newLoadBalancer vpc securityGroup ;;
  repo <- ecr_NewRepository EcrRepositoryName ;;
  containerDef <- pushImageAndGetContainerDef repo ".." ;;
  appTask <- ecs_NewTaskDefinition EcsTaskName
    {| TaskDefinition_Family := pulumi.String "fargate-task-definition";
       TaskDefinition_Cpu := pulumi.String "256";
       TaskDefinition_Memory := pulumi.String "512";
       TaskDefinition_NetworkMode := pulumi.String "awsvpc";
       TaskDefinition_RequiresCompatibilities := [pulumi.String "FARGATE"];
       TaskDefinition_ExecutionRoleArn := Arn taskExecRole;
       TaskDefinition_ContainerDefinitions := containerDef |} ;;
  _ <- unchecked (ecs_NewService EcsServiceName
    {| Service_Cluster := Arn cluster;
       Service_DesiredCount := pulumi.Int ReplicasCount;
       Service_LaunchType := pulumi.String "FARGATE";
       Service_TaskDefinition := Arn appTask;
       Service_NetworkConfiguration := Some
         {| ServiceNetworkConfiguration_AssignPublicIp := pulumi.Bool true;
            ServiceNetworkConfiguration_Subnets := toPulumiStringArray (GetSubnetIds_Ids subnet);
            ServiceNetworkConfiguration_SecurityGroups := [ID securityGroup] |};
       Service_LoadBalancers :=
         [ {| ServiceLoadBalancer_TargetGroupArn := Arn targetGroup;
              ServiceLoadBalancer_ContainerName := pulumi.String ContainerName;
              ServiceLoadBalancer_ContainerPort := pulumi.Int 80 |} ] |}
    [webListener]) ;;
  _ <- Export "url" (DnsName loadBalancer) ;;
  ret tt.

(** [pulumi.Run main]: the program starts on an empty context. *)
Definition Run : list Event * result unit := main [].

End Deployment.

(** ** The resource graph and its realization *)

Definition refs_all (l : StringArray) : list Resource := flat_map (@pulumi.refs string) l.

(** The resources whose outputs the arguments of a declaration read: the
    implicit dependency edges. *)
Definition args_refs (args : ResourceArgs) : list Resource :=
  match args with
  | SecurityGroup_args a =>
      pulumi.refs (SecurityGroup_VpcId a)
      ++ flat_map (fun e => pulumi.refs (SecurityGroupEgress_Protocol e)
                            ++ pulumi.refs (SecurityGroupEgress_FromPort e)
                            ++ pulumi.refs (SecurityGroupEgress_ToPort e)
                            ++ refs_all (SecurityGroupEgress_CidrBlocks e))
                  (SecurityGroup_Egress a)
      ++ flat_map (fun e => pulumi.refs (SecurityGroupIngress_Protocol e)
                            ++ pulumi.refs (SecurityGroupIngress_FromPort e)
                            ++ pulumi.refs (SecurityGroupIngress_ToPort e)
                            ++ refs_all (SecurityGroupIngress_CidrBlocks e))
                  (SecurityGroup_Ingress a)
  | Cluster_args => []
  | Role_args a => pulumi.refs (Role_AssumeRolePolicy a)
  | RolePolicyAttachment_args a =>
      pulumi.refs (RolePolicyAttachment_Role a) ++ pulumi.refs (RolePolicyAttachment_PolicyArn a)
  | LoadBalancer_args a =>
      refs_all (LoadBalancer_Subnets a) ++ refs_all (LoadBalancer_SecurityGroups a)
  | TargetGroup_args a =>
      pulumi.refs (TargetGroup_Port a) ++ pulumi.refs (TargetGroup_Protocol a)
      ++ pulumi.refs (TargetGroup_TargetType a) ++ pulumi.refs (TargetGroup_VpcId a)
  | Listener_args a =>
      pulumi.refs (Listener_LoadBalancerArn a) ++ pulumi.refs (Listener_Port a)
      ++ flat_map (fun e => pulumi.refs (ListenerDefaultAction_Type e)
                            ++ pulumi.refs (ListenerDefaultAction_TargetGroupArn e))
                  (Listener_DefaultActions a)
  | Repository_args => []
  | Image_args a =>
      pulumi.refs (DockerBuild_Context (Image_Build a))
      ++ pulumi.refs (Image_ImageName a)
      ++ pulumi.refs (ImageRegistry_Server (Image_Registry a))
      ++ pulumi.refs (ImageRegistry_Username (Image_Registry a))
      ++ pulumi.refs (ImageRegistry_Password (Image_Registry a))
  | TaskDefinition_args a =>
      pulumi.refs (TaskDefinition_Family a) ++ pulumi.refs (TaskDefinition_Cpu a)
      ++ pulumi.refs (TaskDefinition_Memory a) ++ pulumi.refs (TaskDefinition_NetworkMode a)
      ++ refs_all (TaskDefinition_RequiresCompatibilities a)
      ++ pulumi.refs (TaskDefinition_ExecutionRoleArn a)
      ++ pulumi.refs (TaskDefinition_ContainerDefinitions a)
  | Service_args a =>
      pulumi.refs (Service_Cluster a) ++ pulumi.refs (Service_DesiredCount a)
      ++ pulumi.refs (Service_LaunchType a) ++ pulumi.refs (Service_TaskDefinition a)
      ++ match Service_NetworkConfiguration a with
         | Some nc =>
             pulumi.refs (ServiceNetworkConfiguration_AssignPublicIp nc)
             ++ refs_all (ServiceNetworkConfiguration_Subnets nc)
             ++ refs_all (ServiceNetworkConfiguration_SecurityGroups nc)
         | None => []
         end
      ++ flat_map (fun e => pulumi.refs (ServiceLoadBalancer_TargetGroupArn e)
                            ++ pulumi.refs (ServiceLoadBalancer_ContainerName e)
                            ++ pulumi.refs (ServiceLoadBalancer_ContainerPort e))
                  (Service_LoadBalancers a)
  end%list.

(** The declarations the engine accepted: the resource graph. *)
Fixpoint graph (ctx : list Event) : list Declaration :=
  match ctx with
  | [] => []
  | Declared d None :: rest => d :: graph rest
  | _ :: rest => graph rest
  end.

(** Every declaration the program made, accepted or not. *)
Fixpoint declarations (ctx : list Event) : list Declaration :=
  match ctx with
  | [] => []
  | Declared d _ :: rest => d :: declarations rest
  | Exported _ _ :: rest => declarations rest
  end.

(** The edges of a declaration: the resources its arguments read, and the
    resources it is explicitly ordered after. *)
Definition deps (d : Declaration) : list Resource :=
  (args_refs (decl_args d) ++ decl_dependsOn d)%list.

Definition mem (r : Resource) (l : list Resource) : bool :=
  existsb (pulumi.resource_eqb r) l.

(** The engine's ordering guarantee, as the specification states it
    (section 5): a resource is not realized until every resource whose
    output it references, and every resource it is explicitly ordered
    after, has been realized.  [sched] is the order in
    which the engine realizes resources of the graph [g], [done] the
    resources realized before. *)
Fixpoint valid_schedule (g : list Declaration) (done sched : list Resource) : bool :=
  match sched with
  | [] => true
  | r :: rest =>
      existsb (fun d => pulumi.resource_eqb (decl_resource d) r) g
      && forallb (fun d => negb (pulumi.resource_eqb (decl_resource d) r)
                           || forallb (fun r' => mem r' done) (deps d)) g
      && valid_schedule g (r :: done) rest
  end.

Definition service_resource : Resource :=
  {| pulumi.res_type := pulumi.Service; pulumi.res_name := EcsServiceName |}.

Definition listener_resource : Resource :=
  {| pulumi.res_type := pulumi.Listener; pulumi.res_name := LoadBalancerListenerName |}.

(** ** Engines to run the program on *)

(** A table that calls no rune above Latin-1 printable. *)
Definition latin1_table : N -> bool := fun _ => false.

(** An engine whose lookups succeed, whose credential endpoint returns
    [token] and whose registrations fail with [reject d] when it is an
    error. *)
Definition test_engine (subnets : list string) (token : string)
  (reject : Declaration -> option error) : Engine :=
  {| LookupVpc := fun _ => Ok {| LookupVpc_Id := "vpc-1" |};
     GetSubnetIds := fun _ => Ok {| GetSubnetIds_Ids := subnets |};
     GetCredentials := fun _ => Ok {| GetCredentials_AuthorizationToken := token |};
     RegisterResource := reject |}.

Definition accept_all : Declaration -> option error := fun _ => None.

(** The engine that refuses the service and nothing else. *)
Definition reject_service : Declaration -> option error :=
  fun d =>
    match decl_args d with
    | Service_args _ => Some (EngineError "service refused")
    | _ => None
    end.

(** The provider's values for the output properties of realized
    resources, as far as the examples read them. *)
Definition test_realized : Resource -> string -> string :=
  fun r p => (pulumi.res_name r ++ "." ++ p)%string.

(** ** Notions used in the proofs *)

(** A check of [f] on every number below [n], by computation. *)
Fixpoint all_below (n : nat) (f : N -> bool) : bool :=
  match n with
  | O => true
  | S k => f (N.of_nat k) && all_below k f
  end.

(** A byte that is neither the double quote nor the backslash. *)
Definition plain (c : ascii) : bool :=
  negb (Ascii.eqb c quote_char) && negb (Ascii.eqb c backslash).

Fixpoint all_plain (s : string) : bool :=
  match s with
  | EmptyString => true
  | String c rest => plain c && all_plain rest
  end.

(** A piece of text is transparent when the scanner passes over it. *)
Definition transparent (p : string) : Prop :=
  forall s, Json.literal_end (p ++ s) = Json.literal_end s.

Fixpoint bytes_items (s : string) : list Json.item :=
  match s with
  | EmptyString => []
  | String c rest => Json.Byte c :: bytes_items rest
  end.

(** The text of a format before its first verb [%q], and after it. *)
Fixpoint before_verb (format : string) : string :=
  match format with
  | EmptyString => EmptyString
  | String c rest =>
      match rest with
      | String v _ =>
          if Ascii.eqb c "%" && Ascii.eqb v "q" then EmptyString
          else String c (before_verb rest)
      | EmptyString => String c EmptyString
      end
  end.

Fixpoint after_verb (format : string) : string :=
  match format with
  | EmptyString => EmptyString
  | String c rest =>
      match rest with
      | String v rest' =>
          if Ascii.eqb c "%" && Ascii.eqb v "q" then rest' else after_verb rest
      | EmptyString => EmptyString
      end
  end.

(** The text of [fmtstr] before and after its verb. *)
Definition doc_prefix : string := Eval vm_compute in before_verb fmtstr.
Definition doc_suffix : string := Eval vm_compute in after_verb fmtstr.

(** The value the document denotes when its image literal denotes [image]. *)
Definition doc_value (image : string) : Json.value :=
  Json.JArray
    [Json.JObject
       [("name", Json.JString "my-app");
        ("image", Json.JString image);
        ("portMappings",
          Json.JArray
            [Json.JObject
               [("containerPort", Json.JNumber 80);
                ("hostPort", Json.JNumber 80);
                ("protocol", Json.JString "tcp")]])]].

(** The one container the program describes, with [image] as its image. *)
Definition the_container (image : string) : ContainerDefinition :=
  {| cd_name := "my-app";
     cd_image := image;
     cd_portMappings := [ {| containerPort := 80; hostPort := 80; protocol := "tcp" |} ] |}.

Definition repository_resource : Resource :=
  {| pulumi.res_type := pulumi.Repository; pulumi.res_name := EcrRepositoryName |}.

Definition image_resource : Resource :=
  {| pulumi.res_type := pulumi.Image; pulumi.res_name := ImageName |}.

(** The name of an event and the engine's answer to it. *)
Definition outcome_of (ev : Event) : string * option error :=
  match ev with
  | Declared d outcome => (decl_name d, outcome)
  | Exported name _ => (name, None)
  end.

(** The engine of the examples: two subnets, the credentials
    [AWS:secrettoken], every declaration accepted. *)
Definition demo_engine : Engine :=
  test_engine ["subnet-a"; "subnet-b"] "QVdTOnNlY3JldHRva2Vu" accept_all.

(** The same engine with the credentials [user:p1:p2]. *)
Definition colon_engine : Engine :=
  test_engine ["subnet-a"; "subnet-b"] "dXNlcjpwMTpwMg==" accept_all.

(** The same engine, refusing the service. *)
Definition refusing_engine : Engine :=
  test_engine ["subnet-a"; "subnet-b"] "QVdTOnNlY3JldHRva2Vu" reject_service.

(** The resources in the order in which the program declares them, up to
    the service. *)
Definition before_service : list Resource :=
  [ {| pulumi.res_type := pulumi.SecurityGroup; pulumi.res_name := SecurityGroupName |};
    {| pulumi.res_type := pulumi.Cluster; pulumi.res_name := EcsClusterName |};
    {| pulumi.res_type := pulumi.Role; pulumi.res_name := TaskExecRoleName |};
    {| pulumi.res_type := pulumi.RolePolicyAttachment; pulumi.res_name := TaskExecPolicyName |};
    {| pulumi.res_type := pulumi.LoadBalancer; pulumi.res_name := LoadBalancerName |};
    {| pulumi.res_type := pulumi.TargetGroup; pulumi.res_name := LoadBalancerTargetGroupName |};
    listener_resource;
    repository_resource;
    image_resource;
    {| pulumi.res_type := pulumi.TaskDefinition; pulumi.res_name := EcsTaskName |} ].

(** ** Notions used in the further properties *)

(** The value of a result, the error forgotten. *)
Definition result_value {A : Type} (r : result A) : option A :=
  match r with
  | Ok a => Some a
  | Err _ => None
  end.

(** The resource of type [t] with the logical name [name]. *)
Definition resource (t : pulumi.ResourceType) (name : string) : Resource :=
  {| pulumi.res_type := t; pulumi.res_name := name |}.

Definition load_balancer_resource : Resource :=
  resource pulumi.LoadBalancer LoadBalancerName.

Definition policy_resource : Resource :=
  resource pulumi.RolePolicyAttachment TaskExecPolicyName.

(** The values the program exports, in order. *)
Fixpoint exports (ctx : list Event) : list (string * StringInput) :=
  match ctx with
  | [] => []
  | Exported name v :: rest => (name, v) :: exports rest
  | Declared _ _ :: rest => exports rest
  end.

(** The declarations made before the subnets are looked up. *)
Definition before_subnets (t : pulumi.ResourceType) : bool :=
  match t with
  | pulumi.SecurityGroup | pulumi.Cluster | pulumi.Role | pulumi.RolePolicyAttachment => true
  | _ => false
  end.



(** An engine that finds the network and fails to list its subnets. *)
Definition no_subnets_engine : Engine :=
  {| LookupVpc := fun _ => Ok {| LookupVpc_Id := "vpc-1" |};
     GetSubnetIds := fun _ => Err (EngineError "no subnets");
     GetCredentials := fun _ => Err (EngineError "no credentials");
     RegisterResource := accept_all |}.

(** An engine whose credential endpoint fails. *)
Definition no_credentials_engine : Engine :=
  {| LookupVpc := fun _ => Ok {| LookupVpc_Id := "vpc-1" |};
     GetSubnetIds := fun _ => Ok {| GetSubnetIds_Ids := ["subnet-a"; "subnet-b"] |};
     GetCredentials := fun _ => Err (EngineError "no credentials");
     RegisterResource := accept_all |}.

(** The engine of the examples with the credentials [nocolon]. *)
Definition plain_token_engine : Engine :=
  test_engine ["subnet-a"; "subnet-b"] "bm9jb2xvbg==" accept_all.

(** The token of [AWS:secrettoken] broken into lines. *)
Definition wrapped_token : string :=
  "QVdTOnNl" ++ String LF ("Y3JldHRva2Vu" ++ String CR (String LF EmptyString)).

Definition wrapped_token_engine : Engine :=
  test_engine ["subnet-a"; "subnet-b"] wrapped_token accept_all.

(** The number of colons of a text. *)
Fixpoint colons (s : string) : nat :=
  match s with
  | EmptyString => O
  | String c rest => if Ascii.eqb c ":" then S (colons rest) else colons rest
  end.

(** A text without its line breaks. *)
Fixpoint strip_newlines (s : string) : string :=
  match s with
  | EmptyString => EmptyString
  | String c rest =>
      if Base64.is_newline c then strip_newlines rest else String c (strip_newlines rest)
  end.

(** The bytes a token is made of before its padding: digits of the
    alphabet and line breaks. *)
Fixpoint token_body (s : string) : bool :=
  match s with
  | EmptyString => true
  | String c rest =>
      (negb (Base64.decodeMap c =? 255) || Base64.is_newline c) && token_body rest
  end.

(** Digits of the alphabet only. *)
Fixpoint all_digits (s : string) : bool :=
  match s with
  | EmptyString => true
  | String c rest => negb (Base64.decodeMap c =? 255) && all_digits rest
  end.

(** The resources of the program, in the order of their declarations. *)
Definition all_resources : list Resource := (before_service ++ [service_resource])%list.

(** The data-flow edges of the program: [(a, b)] when an argument of [b]
    reads an output of [a]. *)
Definition data_edges : list (Resource * Resource) :=
  [ (resource pulumi.Role TaskExecRoleName, policy_resource);
    (resource pulumi.SecurityGroup SecurityGroupName, load_balancer_resource);
    (load_balancer_resource, listener_resource);
    (resource pulumi.TargetGroup LoadBalancerTargetGroupName, listener_resource);
    (repository_resource, image_resource);
    (image_resource, resource pulumi.TaskDefinition EcsTaskName);
    (resource pulumi.Role TaskExecRoleName, resource pulumi.TaskDefinition EcsTaskName);
    (resource pulumi.Cluster EcsClusterName, service_resource);
    (resource pulumi.TaskDefinition EcsTaskName, service_resource);
    (resource pulumi.SecurityGroup SecurityGroupName, service_resource);
    (resource pulumi.TargetGroup LoadBalancerTargetGroupName, service_resource) ].


(** The resources in an order that realizes the service before the policy
    attachment of the execution role. *)
Definition policy_last : list Resource :=
  [ resource pulumi.SecurityGroup SecurityGroupName;
    resource pulumi.Cluster EcsClusterName;
    resource pulumi.Role TaskExecRoleName;
    load_balancer_resource;
    resource pulumi.TargetGroup LoadBalancerTargetGroupName;
    listener_resource;
    repository_resource;
    image_resource;
    resource pulumi.TaskDefinition EcsTaskName;
    service_resource;
    policy_resource ].

(** The value of the role's assume-role policy. *)
Definition trust_policy : Json.value :=
  Json.JObject
    [ ("Version", Json.JString "2008-10-17");
      ("Statement",
        Json.JArray
          [ Json.JObject
              [ ("Sid", Json.JString EmptyString);
                ("Effect", Json.JString "Allow");
                ("Principal", Json.JObject [("Service", Json.JString "ecs-tasks.amazonaws.com")]);
                ("Action", Json.JString "sts:AssumeRole") ] ]) ].

(** Texts of printable ASCII bytes other than the double quote and the
    backslash. *)
Fixpoint printable_plain (s : string) : bool :=
  match s with
  | EmptyString => true
  | String c rest =>
      (0x20 <=? byte_val c) && (byte_val c <=? 0x7E) && plain c && printable_plain rest
  end.

(** * Facts about the library functions *)




Lemma all_below_spec n f : all_below n f = true -> forall i, i < N.of_nat n -> f i = true.
Proof.
  induction n as [|k IH]; simpl; intros H i Hi.
  - lia.
  - apply andb_true_iff in H. destruct H as [Hk Hrest].
    destruct (N.eq_dec i (N.of_nat k)) as [-> | Hne]; [assumption|].
    apply IH; [assumption | lia].
Qed.

(** ** Base64: decoding undoes encoding *)

Section Base64Facts.
Import Base64.

















End Base64Facts.

(** ** Split *)

Lemma Split_no_colon s : no_colon s = true -> Split s ":" = [s].
Proof.
  induction s as [|c s IH]; cbn [no_colon Split]; intros H; [reflexivity|].
  apply andb_true_iff in H. destruct H as [Hc Hs].
  apply negb_true_iff in Hc. rewrite Hc, (IH Hs). reflexivity.
Qed.

Lemma Split_app_colon u rest :
  no_colon u = true -> Split (u ++ String ":" rest) ":" = u :: Split rest ":".
Proof.
  induction u as [|c u IH]; cbn [no_colon Split append]; intros H.
  - reflexivity.
  - apply andb_true_iff in H. destruct H as [Hc Hu].
    apply negb_true_iff in Hc. rewrite Hc, (IH Hu). reflexivity.
Qed.

Lemma append_assoc (a b c : string) : (a ++ b) ++ c = a ++ (b ++ c).
Proof. induction a as [|x a IH]; cbn [append]; [reflexivity | rewrite IH; reflexivity]. Qed.

(** ** Quote: the literal cannot be left from inside *)

Section QuoteFacts.
Variable tbl : N -> bool.

Lemma transparent_plain p : all_plain p = true -> transparent p.
Proof.
  induction p as [|c p IH]; cbn [all_plain]; intros H s; [reflexivity|].
  apply andb_true_iff in H. destruct H as [Hc Hp].
  unfold plain in Hc. apply andb_true_iff in Hc. destruct Hc as [Hq Hb].
  apply negb_true_iff in Hq, Hb.
  cbn [append Json.literal_end]. rewrite Hq, Hb. apply IH, Hp.
Qed.

Lemma transparent_escape c p : all_plain p = true -> transparent (String backslash (String c p)).
Proof.
  intros Hp s. cbn [append Json.literal_end].
  change (Ascii.eqb backslash quote_char) with false.
  change (Ascii.eqb backslash backslash) with true. cbn iota.
  apply transparent_plain, Hp.
Qed.

Lemma hex_at_plain i : plain (hex_at i) = true.
Proof.
  unfold hex_at. remember (N.to_nat i) as n eqn:E. clear E i.
  do 16 (destruct n as [|n]; [reflexivity|]). reflexivity.
Qed.

Lemma hex_digits_plain d r : all_plain (hex_digits d r) = true.
Proof.
  induction d as [|d IH]; cbn [hex_digits all_plain]; [reflexivity|].
  rewrite hex_at_plain, IH. reflexivity.
Qed.

Lemma land_255_lt x : N.land x 255 < 256.
Proof. change 255 with (N.ones 8). rewrite N.land_ones. apply N.mod_lt. discriminate. Qed.

Lemma high_byte_plain lead x :
  (lead =? 0x80) || (lead =? 0xC0) || (lead =? 0xE0) || (lead =? 0xF0) = true ->
  x < 256 -> plain (ascii_of_N (N.lor lead x)) = true.
Proof.
  intros Hlead Hx.
  apply (all_below_spec 256 (fun x => plain (ascii_of_N (N.lor lead x)))); [|exact Hx].
  repeat (apply orb_true_iff in Hlead; destruct Hlead as [Hlead|Hlead]);
    apply N.eqb_eq in Hlead; subst lead; vm_compute; reflexivity.
Qed.

Lemma cont_byte_plain x : plain (Utf8.cont_byte x) = true.
Proof.
  unfold Utf8.cont_byte. apply high_byte_plain; [reflexivity|].
  change 0x3F with (N.ones 6). rewrite N.land_ones.
  pose proof (N.mod_lt (N.land x 255) (2 ^ 6)) as H.
  change (2 ^ 6) with 64 in *. lia.
Qed.

Lemma ascii_byte_plain r :
  r <= 0x7F -> (r =? byte_val quote_char) || (r =? byte_val backslash) = false ->
  plain (to_byte r) = true.
Proof.
  intros Hr Hne.
  assert (H : ((r =? byte_val quote_char) || (r =? byte_val backslash) || plain (to_byte r)) = true).
  { apply (all_below_spec 128 (fun r => (r =? byte_val quote_char) || (r =? byte_val backslash)
                                        || plain (to_byte r))); [vm_compute; reflexivity | lia]. }
  rewrite Hne in H. exact H.
Qed.

Lemma EncodeRune_plain r :
  (r =? byte_val quote_char) || (r =? byte_val backslash) = false ->
  all_plain (Utf8.EncodeRune r) = true.
Proof.
  intros Hne. unfold Utf8.EncodeRune.
  destruct (r <=? 0x7F) eqn:H1.
  - apply N.leb_le in H1. cbn [all_plain]. rewrite ascii_byte_plain by assumption. reflexivity.
  - destruct (r <=? 0x7FF) eqn:H2.
    + cbn [all_plain]. rewrite high_byte_plain by (reflexivity || apply land_255_lt).
      rewrite cont_byte_plain. reflexivity.
    + destruct (if (Utf8.MaxRune <? r) || ((Utf8.surrogateMin <=? r) && (r <=? Utf8.surrogateMax))
                then Some Utf8.RuneError else if r <=? 0xFFFF then Some r else None) as [r'|];
        cbn [all_plain];
        rewrite high_byte_plain by (reflexivity || apply land_255_lt);
        rewrite !cont_byte_plain; reflexivity.
Qed.

(** Every piece that [appendEscapedRune] writes is passed over whole. *)
Lemma appendEscapedRune_transparent r : transparent (appendEscapedRune tbl r).
Proof.
  unfold appendEscapedRune.
  destruct ((r =? byte_val quote_char) || (r =? byte_val backslash)) eqn:Hq.
  - apply transparent_escape. reflexivity.
  - destruct (IsPrint tbl r).
    + apply transparent_plain, EncodeRune_plain, Hq.
    + set (D := if (r <? 0x20) || (r =? 0x7F) then _ else _).
      assert (HD : transparent D).
      { subst D. destruct ((r <? 0x20) || (r =? 0x7F)).
        - apply transparent_escape. cbn [all_plain]. rewrite !hex_at_plain. reflexivity.
        - destruct (negb (Utf8.ValidRune r)); [|destruct (r <? 0x10000)];
            apply transparent_escape, hex_digits_plain. }
      clearbody D.
      destruct r as [|p]; [exact HD|].
      repeat (match goal with
              | |- transparent (match ?q with xI _ => _ | xO _ => _ | xH => _ end) =>
                  destruct q
              end);
        first [exact HD | apply transparent_escape; reflexivity].
Qed.

Lemma hex_escape_transparent c :
  transparent ("\x" ++ String (hex_at (N.shiftr (byte_val c) 4))
                         (String (hex_at (N.land (byte_val c) 0xF)) EmptyString)).
Proof.
  apply transparent_escape. cbn [all_plain]. rewrite !hex_at_plain. reflexivity.
Qed.

(** The scanner, started after the opening quote of a quoted string, stops
    after the closing quote that [Quote] wrote, whatever the string. *)
Lemma quote_loop_end s : forall skip rest,
  Json.literal_end (quote_loop tbl s skip ++ String quote_char rest) = Some rest.
Proof.
  induction s as [|c s IH]; intros skip rest.
  - cbn [quote_loop append Json.literal_end].
    change (Ascii.eqb quote_char quote_char) with true. reflexivity.
  - cbn [quote_loop]. destruct skip as [|k]; [|apply IH].
    destruct (if Utf8.RuneSelf <=? byte_val c then Utf8.DecodeRuneInString (String c s)
              else (byte_val c, 1%nat)) as [r width].
    rewrite append_assoc.
    destruct (Nat.eqb width 1 && (r =? Utf8.RuneError)).
    + rewrite hex_escape_transparent. apply IH.
    + rewrite appendEscapedRune_transparent. apply IH.
Qed.

End QuoteFacts.

(** ** The JSON reader on quoted strings *)

Section ReaderFacts.
Variable tbl : N -> bool.

Lemma quote_loop_ascii c s :
  byte_val c < 0x80 ->
  quote_loop tbl (String c s) 0 = appendEscapedRune tbl (byte_val c) ++ quote_loop tbl s 0.
Proof.
  intros Hc. cbn [quote_loop].
  replace (Utf8.RuneSelf <=? byte_val c) with false
    by (symmetry; apply N.leb_gt; exact Hc).
  replace (byte_val c =? Utf8.RuneError) with false
    by (symmetry; apply N.eqb_neq; unfold Utf8.RuneError; lia).
  rewrite andb_false_r. reflexivity.
Qed.

Lemma json_safe_byte_ascii c : json_safe_byte c = true -> byte_val c < 0x80.
Proof.
  unfold json_safe_byte. intros H.
  repeat (apply orb_true_iff in H; destruct H as [H|H]);
    try (apply N.eqb_eq in H; rewrite H; reflexivity).
  apply andb_true_iff in H. destruct H as [_ H]. apply N.leb_le in H. lia.
Qed.

(** A byte that is safe is read back as itself. *)
Lemma read_items_safe_byte c s :
  json_safe_byte c = true ->
  Json.read_items (appendEscapedRune tbl (byte_val c) ++ s)
  = Json.cons_item (Json.Byte c) (Json.read_items s).
Proof.
  intros H.
  destruct c as [[] [] [] [] [] [] [] []]; try discriminate H; reflexivity.
Qed.

Lemma items_bytes_bytes_items s : Json.items_bytes (bytes_items s) = s.
Proof. induction s as [|c s IH]; cbn; [reflexivity | rewrite IH; reflexivity]. Qed.

Lemma read_items_quote_loop s rest :
  json_safe s = true ->
  Json.read_items (quote_loop tbl s 0 ++ String quote_char rest) = Some (bytes_items s, rest).
Proof.
  induction s as [|c s IH]; cbn [json_safe]; intros H.
  - reflexivity.
  - apply andb_true_iff in H. destruct H as [Hc Hs].
    rewrite quote_loop_ascii by (apply json_safe_byte_ascii; exact Hc).
    rewrite append_assoc, read_items_safe_byte by exact Hc.
    rewrite (IH Hs). reflexivity.
Qed.

Lemma read_string_quote_loop s rest :
  json_safe s = true ->
  Json.read_string (quote_loop tbl s 0 ++ String quote_char rest) = Some (s, rest).
Proof.
  intros H. unfold Json.read_string. rewrite read_items_quote_loop by exact H.
  rewrite items_bytes_bytes_items. reflexivity.
Qed.

End ReaderFacts.

Lemma cons_item_some i r items rest :
  Json.cons_item i r = Some (items, rest) ->
  exists items', r = Some (items', rest).
Proof.
  destruct r as [[items' rest']|]; cbn; intros H; [|discriminate].
  injection H as _ <-. eauto.
Qed.

Lemma hex_val_plain c n :
  Json.hex_val c = Some n ->
  Ascii.eqb c quote_char = false /\ Ascii.eqb c backslash = false.
Proof.
  destruct c as [[] [] [] [] [] [] [] []]; intros H; try discriminate H; split; reflexivity.
Qed.

(** Where the JSON reader accepts a literal, it ends where the scanner
    ends. *)
Lemma read_items_literal_end n : forall s items rest,
  (String.length s <= n)%nat ->
  Json.read_items s = Some (items, rest) -> Json.literal_end s = Some rest.
Proof.
  induction n as [|n IH]; intros s items rest Hlen H.
  - destruct s; [discriminate H | cbn in Hlen; lia].
  - destruct s as [|c s]; [discriminate H|].
    cbn [String.length] in Hlen. cbn [Json.read_items Json.literal_end] in *.
    destruct (Ascii.eqb c quote_char); [injection H as _ <-; reflexivity|].
    destruct (Ascii.eqb c backslash).
    + destruct s as [|e s1]; [discriminate H|]. cbn [String.length] in Hlen.
      destruct (Json.simple_escape e).
      * apply cons_item_some in H. destruct H as [items' H].
        apply (IH _ items'); [lia | exact H].
      * destruct (Ascii.eqb e "u"); [|discriminate H].
        destruct s1 as [|h1 [|h2 [|h3 [|h4 s2]]]]; try discriminate H.
        unfold Json.hex4 in H.
        destruct (Json.hex_val h1) eqn:E1; [|discriminate H].
        destruct (Json.hex_val h2) eqn:E2; [|discriminate H].
        destruct (Json.hex_val h3) eqn:E3; [|discriminate H].
        destruct (Json.hex_val h4) eqn:E4; [|discriminate H].
        apply hex_val_plain in E1, E2, E3, E4.
        cbn [Json.literal_end].
        destruct E1 as [-> ->], E2 as [-> ->], E3 as [-> ->], E4 as [-> ->].
        apply cons_item_some in H. destruct H as [items' H].
        cbn [String.length] in Hlen.
        apply (IH _ items'); [lia | exact H].
    + destruct (byte_val c <? 0x20); [discriminate H|].
      apply cons_item_some in H. destruct H as [items' H].
      apply (IH _ items'); [lia | exact H].
Qed.

(** ** The document around the image literal *)

Lemma Sprintf_fmtstr tbl name :
  Sprintf tbl fmtstr [name] = doc_prefix ++ Quote tbl name ++ doc_suffix.
Proof. reflexivity. Qed.

Lemma read_value_S f s : Json.read_value (S f) s =
  match Json.skip_ws s with
  | EmptyString => None
  | String c rest as s' =>
      if Ascii.eqb c "[" then
        match Json.skip_ws rest with
        | String d rest' =>
            if Ascii.eqb d "]" then Some (Json.JArray [], rest')
            else
              match Json.read_elements f rest with
              | Some (items, rest'') => Some (Json.JArray items, rest'')
              | None => None
              end
        | EmptyString => None
        end
      else if Ascii.eqb c "{" then
        match Json.skip_ws rest with
        | String d rest' =>
            if Ascii.eqb d "}" then Some (Json.JObject [], rest')
            else
              match Json.read_members f rest with
              | Some (members, rest'') => Some (Json.JObject members, rest'')
              | None => None
              end
        | EmptyString => None
        end
      else if Ascii.eqb c quote_char then
        match Json.read_string rest with
        | Some (str, rest') => Some (Json.JString str, rest')
        | None => None
        end
      else if Ascii.eqb c "t" then option_map (pair (Json.JBool true)) (Json.read_literal "true" s')
      else if Ascii.eqb c "f" then option_map (pair (Json.JBool false)) (Json.read_literal "false" s')
      else if Ascii.eqb c "n" then option_map (pair Json.JNull) (Json.read_literal "null" s')
      else
        match Json.read_number s' with
        | Some (n, rest') => Some (Json.JNumber n, rest')
        | None => None
        end
  end.
Proof. reflexivity. Qed.

Lemma read_elements_S f s : Json.read_elements (S f) s =
  match Json.read_value f s with
  | Some (v, rest) =>
      match Json.skip_ws rest with
      | String c rest' =>
          if Ascii.eqb c "," then
            match Json.read_elements f rest' with
            | Some (vs, rest'') => Some (v :: vs, rest'')
            | None => None
            end
          else if Ascii.eqb c "]" then Some ([v], rest')
          else None
      | EmptyString => None
      end
  | None => None
  end.
Proof. reflexivity. Qed.

Lemma read_members_S f s : Json.read_members (S f) s =
  match Json.skip_ws s with
  | String q after_quote =>
      if Ascii.eqb q quote_char then
        match Json.read_string after_quote with
        | Some (key, after_key) =>
            match Json.skip_ws after_key with
            | String colon after_colon =>
                if Ascii.eqb colon ":" then
                  match Json.read_value f after_colon with
                  | Some (v, rest) =>
                      match Json.skip_ws rest with
                      | String c rest' =>
                          if Ascii.eqb c "," then
                            match Json.read_members f rest' with
                            | Some (ms, rest'') => Some ((key, v) :: ms, rest'')
                            | None => None
                            end
                          else if Ascii.eqb c "}" then Some ([(key, v)], rest')
                          else None
                      | EmptyString => None
                      end
                  | None => None
                  end
                else None
            | EmptyString => None
            end
        | None => None
        end
      else None
  | EmptyString => None
  end.
Proof. reflexivity. Qed.

Ltac reader_number :=
  match goal with
  | |- context [Json.read_number ?s] =>
      let v := eval vm_compute in (Json.read_number s) in
      change (Json.read_number s) with v
  end.

Ltac reader_step :=
  first [rewrite read_value_S | rewrite read_elements_S | rewrite read_members_S
        | reader_number];
  cbn [Json.skip_ws Json.is_ws Ascii.eqb Bool.eqb orb andb negb quote_char backslash TAB LF CR
       Json.read_string Json.read_items Json.simple_escape Json.cons_item Json.items_bytes
       byte_val N_of_ascii N_of_digits N.ltb N.compare N.add N.mul Pos.compare Pos.compare_cont
       Pos.add Pos.mul Pos.succ].

Lemma parse_doc_accept tail items :
  Json.read_items tail = Some (items, doc_suffix) ->
  Json.parse (doc_prefix ++ String quote_char tail) = Some (doc_value (Json.items_bytes items)).
Proof.
  intros E. unfold Json.parse, doc_prefix. cbn [append String.length].
  repeat reader_step.
  unfold Json.read_string. rewrite E.
  cbn [Json.skip_ws Json.is_ws Ascii.eqb Bool.eqb orb andb negb quote_char backslash TAB LF CR doc_suffix]. repeat reader_step.
 reflexivity.
Qed.

Lemma parse_doc_reject tail :
  Json.read_items tail = None ->
  Json.parse (doc_prefix ++ String quote_char tail) = None.
Proof.
  intros E. unfold Json.parse, doc_prefix. cbn [append String.length].
  repeat reader_step.
  unfold Json.read_string. rewrite E. reflexivity.
Qed.

(** * The declaration pass *)

Ltac run_simpl := cbn beta iota zeta delta [fst snd app declarations graph].

Ltac run_unfold :=
  unfold Run, main, getDefaultVPC, newSecurityGroup, newTaskExecRole, newLoadBalancer,
    pushImageAndGetContainerDef,
    ec2_NewSecurityGroup, ecs_NewCluster, iam_NewRole, iam_NewRolePolicyAttachment,
    elb_NewLoadBalancer, elb_NewTargetGroup, elb_NewListener, ecr_NewRepository,
    docker_NewImage, ecs_NewTaskDefinition, ecs_NewService,
    bind, ret, invoke, register, unchecked, Export;
  run_simpl.

Ltac run_step :=
  match goal with
  | |- context [LookupVpc ?e ?a] =>
      destruct (LookupVpc e a) as [?vpc | ?err] eqn:?Hvpc
  | |- context [GetSubnetIds ?e ?a] =>
      destruct (GetSubnetIds e a) as [?subnet | ?err] eqn:?Hsubnet
  | |- context [RegisterResource ?e ?d] =>
      destruct (RegisterResource e d) as [?err | ] eqn:?Hreg
  end; run_simpl.

(** Case analysis on every way the declaration pass can go. *)
Ltac run_cases := run_unfold; repeat run_step.

(** [d] is one of the declarations listed in [Hin]; those whose arguments
    are not of the constructor in [Hargs] are dismissed. *)
Ltac pick_declaration Hin Hargs :=
  cbn [In] in Hin;
  repeat (destruct Hin as [Hin | Hin];
          [ subst; cbn [decl_args decl_name decl_dependsOn] in Hargs; try discriminate Hargs | ]);
  try contradiction.

Lemma toPulumiStringArray_map a : toPulumiStringArray a = map pulumi.String a.
Proof.
  unfold toPulumiStringArray.
  assert (H : forall acc, fold_left (fun res s => (res ++ [pulumi.String s])%list) a acc
                          = (acc ++ map pulumi.String a)%list).
  { induction a as [|s a IH]; intros acc; cbn [fold_left map].
    - rewrite app_nil_r. reflexivity.
    - rewrite IH, <- app_assoc. reflexivity. }
  apply H.
Qed.

Lemma resolve_all_strings realized l :
  pulumi.resolve_all realized (map pulumi.String l) = Ok l.
Proof.
  induction l as [|s l IH]; cbn [map pulumi.resolve_all]; [reflexivity|].
  rewrite IH. reflexivity.
Qed.

Lemma graph_declarations ctx d : In d (graph ctx) -> In d (declarations ctx).
Proof.
  induction ctx as [|ev ctx IH]; cbn [graph declarations]; [tauto|].
  destruct ev as [d0 [e|] | n v]; cbn [In]; intuition.
Qed.

(** ** C7 *)

(** C7: the service is declared with the desired count [ReplicasCount],
    which is 5, whatever the engine answers to the lookups and to the
    declarations and whatever the provider makes of the resources: no other
    input of the pass reaches it. *)
Theorem service_desired_count tbl engine realized d a :
  In d (declarations (fst (Run tbl engine))) ->
  decl_args d = Service_args a ->
  ReplicasCount = 5%Z
  /\ Service_DesiredCount a = pulumi.Int ReplicasCount
  /\ pulumi.resolve realized (Service_DesiredCount a) = Ok 5%Z.
Proof.
  run_cases; intros Hin Hargs; pick_declaration Hin Hargs;
    injection Hargs as <-; repeat split.
Qed.

(** ** C8 *)

(** C8: the security group is declared with exactly one ingress rule, TCP
    from port 80 to port 80 from 0.0.0.0/0, and exactly one egress rule, all
    protocols ("-1") on all ports (0 to 0) to 0.0.0.0/0. *)
Theorem security_group_rules tbl engine d a :
  In d (declarations (fst (Run tbl engine))) ->
  decl_args d = SecurityGroup_args a ->
  SecurityGroup_Ingress a =
    [ {| SecurityGroupIngress_Protocol := pulumi.String "tcp";
         SecurityGroupIngress_FromPort := pulumi.Int 80;
         SecurityGroupIngress_ToPort := pulumi.Int 80;
         SecurityGroupIngress_CidrBlocks := [pulumi.String "0.0.0.0/0"] |} ]
  /\ SecurityGroup_Egress a =
    [ {| SecurityGroupEgress_Protocol := pulumi.String "-1";
         SecurityGroupEgress_FromPort := pulumi.Int 0;
         SecurityGroupEgress_ToPort := pulumi.Int 0;
         SecurityGroupEgress_CidrBlocks := [pulumi.String "0.0.0.0/0"] |} ].
Proof.
  run_cases; intros Hin Hargs; pick_declaration Hin Hargs;
    injection Hargs as <-; split; reflexivity.
Qed.

(** ** C6 *)

(** C6: when the network lookup returns the subnets [GetSubnetIds_Ids
    subnet], every target group the pass declares has target type "ip",
    port 80 and protocol "HTTP"; every service it declares has, as the
    subnets of its network configuration, the looked-up list, element for
    element in the same order; and when the engine accepts the
    declarations, a target group and a service are in the graph. *)
Theorem subnets_and_target_group tbl engine realized vpc subnet :
  LookupVpc engine {| LookupVpc_Default := Some true |} = Ok vpc ->
  GetSubnetIds engine {| GetSubnetIds_VpcId := LookupVpc_Id vpc |} = Ok subnet ->
  (forall d a,
     In d (declarations (fst (Run tbl engine))) ->
     decl_args d = TargetGroup_args a ->
     TargetGroup_TargetType a = pulumi.String "ip"
     /\ TargetGroup_Port a = pulumi.Int 80
     /\ TargetGroup_Protocol a = pulumi.String "HTTP")
  /\ (forall d a,
        In d (declarations (fst (Run tbl engine))) ->
        decl_args d = Service_args a ->
        exists nc,
          Service_NetworkConfiguration a = Some nc
          /\ ServiceNetworkConfiguration_Subnets nc = map pulumi.String (GetSubnetIds_Ids subnet)
          /\ pulumi.resolve_all realized (ServiceNetworkConfiguration_Subnets nc)
             = Ok (GetSubnetIds_Ids subnet))
  /\ ((forall d, RegisterResource engine d = None) ->
      exists tg sv ta sa,
        In tg (graph (fst (Run tbl engine))) /\ decl_args tg = TargetGroup_args ta
        /\ In sv (graph (fst (Run tbl engine))) /\ decl_args sv = Service_args sa).
Proof.
  intros Hvpc Hsubnet. split; [|split].
  - intros d a. run_unfold. rewrite Hvpc. run_simpl. rewrite Hsubnet. run_simpl.
    repeat run_step; intros Hin Hargs; pick_declaration Hin Hargs;
      injection Hargs as <-; repeat split.
  - intros d a. run_unfold. rewrite Hvpc. run_simpl. rewrite Hsubnet. run_simpl.
    repeat run_step; intros Hin Hargs; pick_declaration Hin Hargs;
      injection Hargs as <-; eexists;
      (split; [reflexivity |];
       cbn [ServiceNetworkConfiguration_Subnets];
       rewrite toPulumiStringArray_map; split; [reflexivity | apply resolve_all_strings]).
  - intros Hacc. run_unfold. rewrite Hvpc. run_simpl. rewrite Hsubnet. run_simpl.
    repeat (rewrite Hacc; run_simpl).
    do 4 eexists. cbn [In].
    split; [do 5 right; left; reflexivity|].
    split; [reflexivity|].
    split; [do 10 right; left; reflexivity|]. reflexivity.
Qed.

(** ** C4 *)

Lemma type_eqb_eq a b : pulumi.type_eqb a b = true -> a = b.
Proof. destruct a, b; cbn; intros H; try discriminate H; reflexivity. Qed.

Lemma resource_eqb_eq a b : pulumi.resource_eqb a b = true -> a = b.
Proof.
  destruct a as [ta na], b as [tb nb]. unfold pulumi.resource_eqb.
  cbn [pulumi.res_type pulumi.res_name]. intros H.
  apply andb_true_iff in H. destruct H as [Ht Hn].
  apply type_eqb_eq in Ht. apply String.eqb_eq in Hn. subst. reflexivity.
Qed.

Lemma resource_eqb_refl a : pulumi.resource_eqb a a = true.
Proof.
  destruct a as [ta na]. unfold pulumi.resource_eqb.
  cbn [pulumi.res_type pulumi.res_name]. rewrite String.eqb_refl.
  destruct ta; reflexivity.
Qed.

Lemma mem_In r l : mem r l = true -> In r l.
Proof.
  unfold mem. intros H. apply existsb_exists in H. destruct H as [x [Hin Heq]].
  apply resource_eqb_eq in Heq. subst. exact Hin.
Qed.

(** In a valid schedule a resource comes after everything it depends on. *)
Lemma valid_schedule_deps g pre : forall done r post,
  valid_schedule g done (pre ++ r :: post) = true ->
  (exists d, In d g /\ decl_resource d = r)
  /\ (forall d, In d g -> decl_resource d = r ->
      forall r', In r' (deps d) -> In r' done \/ In r' pre).
Proof.
  induction pre as [|x pre IH]; intros done r post H; cbn [app valid_schedule] in H;
    apply andb_true_iff in H; destruct H as [H Hrest];
    apply andb_true_iff in H; destruct H as [Hex Hall].
  - split.
    + apply existsb_exists in Hex. destruct Hex as [d [Hin Heq]].
      exists d. split; [exact Hin | apply resource_eqb_eq, Heq].
    + intros d Hin Hr r' Hdep. left.
      rewrite forallb_forall in Hall. specialize (Hall d Hin).
      rewrite Hr, resource_eqb_refl in Hall. cbn [negb orb] in Hall.
      rewrite forallb_forall in Hall. apply mem_In, Hall, Hdep.
  - destruct (IH (x :: done) r post Hrest) as [Hd Hdeps]. split; [exact Hd|].
    intros d Hin Hr r' Hdep.
    destruct (Hdeps d Hin Hr r' Hdep) as [[<- | Hdone] | Hpre].
    + right. left. reflexivity.
    + left. exact Hdone.
    + right. right. exact Hpre.
Qed.

Lemma refs_all_strings l : refs_all (map pulumi.String l) = [].
Proof. induction l as [|s l IH]; cbn; [reflexivity | exact IH]. Qed.

(** The edges of the service: the listener is among the resources it is
    explicitly ordered after, and none of its arguments reads a listener. *)
Lemma service_edges tbl engine d a :
  In d (declarations (fst (Run tbl engine))) ->
  decl_args d = Service_args a ->
  decl_dependsOn d = [listener_resource]
  /\ ~ In listener_resource (args_refs (decl_args d)).
Proof.
  run_cases; intros Hin Hargs; pick_declaration Hin Hargs.
  all: split; [reflexivity|].
  all: cbn [decl_args args_refs Service_Cluster Service_DesiredCount Service_LaunchType
            Service_TaskDefinition Service_NetworkConfiguration Service_LoadBalancers
            ServiceNetworkConfiguration_AssignPublicIp ServiceNetworkConfiguration_Subnets
            ServiceNetworkConfiguration_SecurityGroups].
  all: rewrite toPulumiStringArray_map, refs_all_strings.
  all: cbn; intros H.
  all: repeat (destruct H as [H | H]; [discriminate H|]); exact H.
Qed.

Lemma service_resource_args d :
  decl_resource d = service_resource -> exists a, decl_args d = Service_args a.
Proof.
  unfold decl_resource, service_resource. intros H.
  injection H as Ht _. destruct (decl_args d); try discriminate Ht. eauto.
Qed.

(** C4: in every schedule the engine's ordering guarantee permits, the
    listener is realized before the service: the service's declaration
    names the listener in [pulumi.DependsOn], while none of its arguments
    reads an output of the listener. *)
Theorem service_after_listener tbl engine pre post :
  valid_schedule (graph (fst (Run tbl engine))) [] (pre ++ service_resource :: post) = true ->
  In listener_resource pre
  /\ (forall d a,
        In d (graph (fst (Run tbl engine))) ->
        decl_args d = Service_args a ->
        In listener_resource (decl_dependsOn d)
        /\ ~ In listener_resource (args_refs (decl_args d))).
Proof.
  intros H. apply valid_schedule_deps in H. destruct H as [[d [Hin Hr]] Hdeps].
  split.
  - destruct (service_resource_args d Hr) as [a Ha].
    destruct (service_edges tbl engine d a (graph_declarations _ _ Hin) Ha) as [Hon _].
    destruct (Hdeps d Hin Hr listener_resource) as [[] | Hpre]; [|exact Hpre].
    unfold deps. apply in_or_app. right. rewrite Hon. left. reflexivity.
  - intros d' a' Hin' Ha'.
    destruct (service_edges tbl engine d' a' (graph_declarations _ _ Hin') Ha') as [Hon Hno].
    split; [rewrite Hon; left; reflexivity | exact Hno].
Qed.

(** ** C5 and C10: the container definition document *)

Lemma doc_shape tbl name rest :
  Quote tbl name ++ rest = String quote_char (quote_loop tbl name 0 ++ String quote_char rest).
Proof. unfold Quote. cbn [append]. rewrite append_assoc. reflexivity. Qed.

Lemma container_definitions_doc_value image tail :
  Json.parse (doc_prefix ++ String quote_char tail) = Some (doc_value image) ->
  container_definitions (doc_prefix ++ String quote_char tail) = Some [the_container image].
Proof. intros H. unfold container_definitions. rewrite H. reflexivity. Qed.

(** The document of a reference either is not JSON, or describes the one
    container of the program, with some image. *)
Lemma container_definitions_Sprintf tbl name defs :
  container_definitions (Sprintf tbl fmtstr [name]) = Some defs ->
  exists image, defs = [the_container image].
Proof.
  rewrite Sprintf_fmtstr, doc_shape.
  set (tail := quote_loop tbl name 0 ++ String quote_char doc_suffix).
  destruct (Json.read_items tail) as [[items rest]|] eqn:E.
  - assert (Hrest : rest = doc_suffix).
    { apply read_items_literal_end with (n := String.length tail) in E; [|lia].
      subst tail. rewrite quote_loop_end in E. injection E as <-. reflexivity. }
    subst rest.
    rewrite (container_definitions_doc_value _ _ (parse_doc_accept tail items E)).
    intros H. injection H as <-. eauto.
  - unfold container_definitions. rewrite (parse_doc_reject tail E). discriminate.
Qed.

Lemma parse_Sprintf_safe tbl name :
  json_safe name = true ->
  Json.parse (Sprintf tbl fmtstr [name]) = Some (doc_value name).
Proof.
  intros H. rewrite Sprintf_fmtstr, doc_shape.
  rewrite (parse_doc_accept _ (bytes_items name)) by (apply read_items_quote_loop, H).
  rewrite items_bytes_bytes_items. reflexivity.
Qed.





(** ** C3 *)

Lemma task_definition_document tbl engine d a :
  In d (declarations (fst (Run tbl engine))) ->
  decl_args d = TaskDefinition_args a ->
  TaskDefinition_ContainerDefinitions a = ApplyT (ImageName_of image_resource) (containerDef_of tbl).
Proof.
  run_cases; intros Hin Hargs; pick_declaration Hin Hargs;
    injection Hargs as <-; reflexivity.
Qed.

Lemma service_attachment tbl engine d a :
  In d (declarations (fst (Run tbl engine))) ->
  decl_args d = Service_args a ->
  exists att,
    Service_LoadBalancers a = [att]
    /\ ServiceLoadBalancer_ContainerName att = pulumi.String ContainerName
    /\ ServiceLoadBalancer_ContainerPort att = pulumi.Int 80.
Proof.
  run_cases; intros Hin Hargs; pick_declaration Hin Hargs;
    injection Hargs as <-; eexists; repeat split.
Qed.

(** C3: in every build whose container definition document can be read,
    the container name and port of the service's one load-balancer
    attachment are the name and the container port of the one container
    the document defines: "my-app" and 80. *)
Theorem attachment_matches_container_definition tbl engine realized sv sa td ta doc defs :
  In sv (declarations (fst (Run tbl engine))) ->
  decl_args sv = Service_args sa ->
  In td (declarations (fst (Run tbl engine))) ->
  decl_args td = TaskDefinition_args ta ->
  pulumi.resolve realized (TaskDefinition_ContainerDefinitions ta) = Ok doc ->
  container_definitions doc = Some defs ->
  exists att cd pm,
    Service_LoadBalancers sa = [att]
    /\ defs = [cd]
    /\ cd_portMappings cd = [pm]
    /\ pulumi.resolve realized (ServiceLoadBalancer_ContainerName att) = Ok (cd_name cd)
    /\ pulumi.resolve realized (ServiceLoadBalancer_ContainerPort att) = Ok (containerPort pm)
    /\ cd_name cd = "my-app"
    /\ containerPort pm = 80%Z.
Proof.
  intros Hsv Hsa Htd Hta Hdoc Hdefs.
  destruct (service_attachment tbl engine sv sa Hsv Hsa) as [att [Hlb [Hname Hport]]].
  rewrite (task_definition_document tbl engine td ta Htd Hta) in Hdoc.
  cbn [pulumi.resolve ImageName_of result_bind] in Hdoc.
  unfold containerDef_of in Hdoc. injection Hdoc as <-.
  destruct (container_definitions_Sprintf _ _ _ Hdefs) as [image ->].
  exists att, (the_container image), {| containerPort := 80; hostPort := 80; protocol := "tcp" |}.
  rewrite Hname, Hport. repeat split; try reflexivity. exact Hlb.
Qed.

(** ** C2 and C9: the registry credentials *)

(** The credentials of the image declaration are the first two elements of
    what [repoCreds_of] makes of the repository's registry id. *)
Lemma image_credentials tbl engine d a :
  In d (declarations (fst (Run tbl engine))) ->
  decl_args d = Image_args a ->
  ImageRegistry_Username (Image_Registry a)
  = pulumi.Index (ApplyT (RegistryId repository_resource) (repoCreds_of engine)) 0
  /\ ImageRegistry_Password (Image_Registry a)
     = pulumi.Index (ApplyT (RegistryId repository_resource) (repoCreds_of engine)) 1.
Proof.
  run_cases; intros Hin Hargs; pick_declaration Hin Hargs;
    injection Hargs as <-; split; reflexivity.
Qed.

Lemma resolve_Index realized (o : StringArrayOutput) arr i :
  pulumi.resolve realized o = Ok arr ->
  (i < length arr)%nat ->
  pulumi.resolve realized (pulumi.Index o (Z.of_nat i)) = Ok (nth i arr EmptyString).
Proof.
  intros Ho Hi. unfold pulumi.Index. cbn [pulumi.resolve]. rewrite Ho. cbn [result_bind].
  replace (0 <=? Z.of_nat i)%Z with true by (symmetry; apply Z.leb_le; lia).
  replace (Z.of_nat i <? Z.of_nat (length arr))%Z with true by (symmetry; apply Z.ltb_lt; lia).
  rewrite Nat2Z.id. reflexivity.
Qed.

Lemma resolve_Index_error realized (o : StringArrayOutput) e i :
  pulumi.resolve realized o = Err e ->
  pulumi.resolve realized (pulumi.Index o i) = Err e.
Proof. intros Ho. unfold pulumi.Index. cbn [pulumi.resolve]. rewrite Ho. reflexivity. Qed.

Lemma repoCreds_of_decoded engine rid token data :
  GetCredentials engine {| GetCredentials_RegistryId := rid |}
    = Ok {| GetCredentials_AuthorizationToken := token |} ->
  Base64.DecodeString token = Ok data ->
  repoCreds_of engine rid = Ok (Split data ":").
Proof.
  intros Hc Hd. unfold repoCreds_of. rewrite Hc.
  cbn [result_bind GetCredentials_AuthorizationToken]. rewrite Hd. reflexivity.
Qed.


(** C9: a token that decodes to a text with two colons or more does not
    make the step fail; the user name is the text before the first colon
    and the password the text between the first and the second colon. *)
Theorem extra_colons_tolerated tbl engine realized d a token u p1 rest :
  In d (declarations (fst (Run tbl engine))) ->
  decl_args d = Image_args a ->
  GetCredentials engine
    {| GetCredentials_RegistryId := realized repository_resource "RegistryId" |}
    = Ok {| GetCredentials_AuthorizationToken := token |} ->
  Base64.DecodeString token = Ok (u ++ String ":" (p1 ++ String ":" rest)) ->
  no_colon u = true ->
  no_colon p1 = true ->
  repoCreds_of engine (realized repository_resource "RegistryId")
    = Ok (u :: p1 :: Split rest ":")
  /\ pulumi.resolve realized (ImageRegistry_Username (Image_Registry a)) = Ok u
  /\ pulumi.resolve realized (ImageRegistry_Password (Image_Registry a)) = Ok p1.
Proof.
  intros Hin Hargs Hc Hd Hu Hp.
  destruct (image_credentials tbl engine d a Hin Hargs) as [-> ->].
  assert (Hcreds : repoCreds_of engine (realized repository_resource "RegistryId")
                   = Ok (u :: p1 :: Split rest ":")).
  { rewrite (repoCreds_of_decoded _ _ _ _ Hc Hd).
    rewrite Split_app_colon by exact Hu. rewrite Split_app_colon by exact Hp. reflexivity. }
  split; [exact Hcreds|].
  split.
  - apply (resolve_Index realized _ (u :: p1 :: Split rest ":") 0); [exact Hcreds | cbn; lia].
  - apply (resolve_Index realized _ (u :: p1 :: Split rest ":") 1); [exact Hcreds | cbn; lia].
Qed.




(** ** C1: errors of the declarations *)



Lemma main_stops_at_failed_lookup tbl engine e :
  (LookupVpc engine {| LookupVpc_Default := Some true |} = Err e ->
   Run tbl engine = ([], Err e)).
Proof. intros H. run_unfold. rewrite H. reflexivity. Qed.

(** X2: whatever the engine, a refused service leaves [main] returning
    [nil] after the export. *)
Lemma main_drops_service_error tbl engine d e :
  In (Declared d (Some e)) (fst (Run tbl engine)) ->
  type_of (decl_args d) = pulumi.Service ->
  snd (Run tbl engine) = Ok tt
  /\ exists before v,
       fst (Run tbl engine) = (before ++ [Declared d (Some e); Exported "url" v])%list.
Proof.
  run_cases; intros Hin Hty; cbn [In] in Hin;
    repeat (destruct Hin as [Hin | Hin]; [try discriminate Hin|]); try contradiction.
  all: injection Hin as <- <-; try discriminate Hty.
  split; [reflexivity|].
  match goal with
  | |- exists before v, ?l = _ =>
      exists (removelast (removelast l)); eexists; reflexivity
  end.
Qed.

(** * The theorems at the engine of the examples *)

Tactic Notation "nth_declaration" integer(n) := do n right; left; reflexivity.

(** C7 at the engine of the examples: the service is the eleventh
    declaration. *)
Lemma service_desired_count_witness :
  exists d a,
    In d (declarations (fst (Run latin1_table demo_engine)))
    /\ decl_args d = Service_args a
    /\ pulumi.resolve test_realized (Service_DesiredCount a) = Ok 5%Z.
Proof.
  do 2 eexists. split; [nth_declaration 10|]. split; [reflexivity|].
  refine (proj2 (proj2 (service_desired_count latin1_table demo_engine test_realized _ _ _ _)));
    [nth_declaration 10 | reflexivity].
Defined.

(** C8 at the engine of the examples: the security group is the first
    declaration. *)
Lemma security_group_rules_witness :
  exists d a,
    In d (declarations (fst (Run latin1_table demo_engine)))
    /\ decl_args d = SecurityGroup_args a
    /\ length (SecurityGroup_Ingress a) = 1%nat
    /\ length (SecurityGroup_Egress a) = 1%nat.
Proof.
  do 2 eexists. split; [nth_declaration 0|]. split; [reflexivity|].
  destruct (security_group_rules latin1_table demo_engine _ _
              ltac:(nth_declaration 0) eq_refl) as [Hin Hout].
  rewrite Hin, Hout. split; reflexivity.
Defined.

(** C6 at the engine of the examples, whose lookup returns [subnet-a] and
    [subnet-b]. *)
Lemma subnets_and_target_group_witness :
  exists sv sa nc,
    In sv (graph (fst (Run latin1_table demo_engine)))
    /\ decl_args sv = Service_args sa
    /\ Service_NetworkConfiguration sa = Some nc
    /\ ServiceNetworkConfiguration_Subnets nc
       = [pulumi.String "subnet-a"; pulumi.String "subnet-b"]
    /\ pulumi.resolve_all test_realized (ServiceNetworkConfiguration_Subnets nc)
       = Ok ["subnet-a"; "subnet-b"].
Proof.
  destruct (subnets_and_target_group latin1_table demo_engine test_realized
              {| LookupVpc_Id := "vpc-1" |}
              {| GetSubnetIds_Ids := ["subnet-a"; "subnet-b"] |}
              eq_refl eq_refl) as [_ [Hsv Hex]].
  destruct (Hex (fun _ => eq_refl)) as [tg [sv [ta [sa [_ [_ [Hin Ha]]]]]]].
  destruct (Hsv sv sa (graph_declarations _ _ Hin) Ha) as [nc [Hnc [Hsub Hval]]].
  exists sv, sa, nc. repeat split; assumption.
Defined.

(** C4 at the schedule that follows the order of the declarations. *)
Lemma service_after_listener_witness :
  valid_schedule (graph (fst (Run latin1_table demo_engine))) []
    (before_service ++ [service_resource]) = true
  /\ In listener_resource before_service.
Proof.
  split; [reflexivity|].
  apply (service_after_listener latin1_table demo_engine before_service []). reflexivity.
Defined.

(** C3 at the engine of the examples, the image being pushed under the
    name [my-image.ImageName]. *)
Lemma attachment_matches_container_definition_witness :
  exists sv sa td ta,
    In sv (declarations (fst (Run latin1_table demo_engine)))
    /\ decl_args sv = Service_args sa
    /\ In td (declarations (fst (Run latin1_table demo_engine)))
    /\ decl_args td = TaskDefinition_args ta
    /\ pulumi.resolve test_realized (TaskDefinition_ContainerDefinitions ta)
       = Ok (Sprintf latin1_table fmtstr ["my-image.ImageName"])
    /\ container_definitions (Sprintf latin1_table fmtstr ["my-image.ImageName"])
       = Some [the_container "my-image.ImageName"]
    /\ exists att,
         Service_LoadBalancers sa = [att]
         /\ pulumi.resolve test_realized (ServiceLoadBalancer_ContainerName att) = Ok "my-app"
         /\ pulumi.resolve test_realized (ServiceLoadBalancer_ContainerPort att) = Ok 80%Z.
Proof.
  do 4 eexists.
  split; [nth_declaration 10|]. split; [reflexivity|].
  split; [nth_declaration 9|]. split; [reflexivity|].
  split; [reflexivity|]. split; [vm_compute; reflexivity|].
  destruct (attachment_matches_container_definition latin1_table demo_engine test_realized
              _ _ _ _ (Sprintf latin1_table fmtstr ["my-image.ImageName"])
              [the_container "my-image.ImageName"]
              ltac:(nth_declaration 10) eq_refl ltac:(nth_declaration 9) eq_refl
              eq_refl ltac:(vm_compute; reflexivity))
    as [att [cd [pm [Hlb [Hdefs [Hpm [Hname [Hport [Hcd Hcp]]]]]]]]].
  exists att. rewrite Hname, Hport, Hcd, Hcp. repeat split. exact Hlb.
Defined.


(** C9 at the token of [user:p1:p2]. *)
Lemma extra_colons_tolerated_witness :
  exists d a,
    In d (declarations (fst (Run latin1_table colon_engine)))
    /\ decl_args d = Image_args a
    /\ Base64.DecodeString "dXNlcjpwMTpwMg==" = Ok "user:p1:p2"
    /\ pulumi.resolve test_realized (ImageRegistry_Username (Image_Registry a)) = Ok "user"
    /\ pulumi.resolve test_realized (ImageRegistry_Password (Image_Registry a)) = Ok "p1".
Proof.
  do 2 eexists. split; [nth_declaration 8|]. split; [reflexivity|].
  split; [reflexivity|].
  refine (proj2 (extra_colons_tolerated latin1_table colon_engine test_realized _ _
                   "dXNlcjpwMTpwMg==" "user" "p1" "p2" _ _ eq_refl eq_refl eq_refl eq_refl));
    [nth_declaration 8 | reflexivity].
Defined.


(** * Runs of the library functions *)

Example decode_credentials :
  Base64.DecodeString "QVdTOnNlY3JldHRva2Vu" = Ok "AWS:secrettoken".
Proof. reflexivity. Qed.

Example decode_across_line_break :
  Base64.DecodeString (String "Q" (String "V" (String LF "dT"))) = Ok "AWS".
Proof. reflexivity. Qed.

Example decode_cut_short : Base64.DecodeString "abc" = Err (CorruptInputError 0).
Proof. reflexivity. Qed.

Example decode_foreign_byte : Base64.DecodeString "ab!d" = Err (CorruptInputError 2).
Proof. reflexivity. Qed.

Example decode_after_padding : Base64.DecodeString "QQ==QQ==" = Err (CorruptInputError 4).
Proof. reflexivity. Qed.

Example split_without_colon : Split "nocolon" ":" = ["nocolon"].
Proof. reflexivity. Qed.

Example quote_escapes :
  Quote latin1_table (String "a" (String quote_char (String backslash (String "007" "b"))))
  = String quote_char ("a\" ++ String quote_char ("\\\ab" ++ String quote_char "")).
Proof. reflexivity. Qed.

(** U+00E9 is printable and kept; a lone lead byte is written in
    hexadecimal; U+2028 and U+1F600 are escaped when the table does not
    call them printable. *)
Example quote_beyond_ascii :
  Quote latin1_table
    (String "195" (String "169" (String "195" (String "226" (String "128" (String "168"
      (String "240" (String "159" (String "152" (String "128" EmptyString))))))))))
  = String quote_char (String "195" (String "169"
      ("\xc3\u2028\U0001f600" ++ String quote_char ""))).
Proof. reflexivity. Qed.

Example document_of_plain_reference :
  Json.parse (Sprintf latin1_table fmtstr ["repo/my-image:v1"])
  = Some (doc_value "repo/my-image:v1").
Proof. reflexivity. Qed.

(** * Further properties of the deployment *)

(** ** The pass and its errors *)


(** X2 at the engine that refuses the service. *)
Lemma main_drops_service_error_witness :
  exists d,
    In (Declared d (Some (EngineError "service refused")))
       (fst (Run latin1_table refusing_engine))
    /\ type_of (decl_args d) = pulumi.Service
    /\ snd (Run latin1_table refusing_engine) = Ok tt.
Proof.
  eexists. split; [do 10 right; left; reflexivity|]. split; [reflexivity|].
  refine (proj1 (main_drops_service_error latin1_table refusing_engine _ _ _ _));
    [do 10 right; left; reflexivity | reflexivity].
Defined.

(** X3: when the default network is found and its subnets cannot be
    listed, the pass ends with an error, and it has by then declared the
    security group, the cluster, the role and the policy attachment, and
    nothing else; when the engine accepted these, the error is the one of
    the subnet lookup. *)
Theorem failed_subnet_lookup tbl engine vpc e :
  LookupVpc engine {| LookupVpc_Default := Some true |} = Ok vpc ->
  GetSubnetIds engine {| GetSubnetIds_VpcId := LookupVpc_Id vpc |} = Err e ->
  (forall d, In d (declarations (fst (Run tbl engine))) ->
             before_subnets (type_of (decl_args d)) = true)
  /\ (exists e', snd (Run tbl engine) = Err e')
  /\ ((forall d, In d (declarations (fst (Run tbl engine))) -> RegisterResource engine d = None) ->
      snd (Run tbl engine) = Err e
      /\ map decl_name (declarations (fst (Run tbl engine)))
         = [SecurityGroupName; EcsClusterName; TaskExecRoleName; TaskExecPolicyName]).
Proof.
  intros Hvpc Hsub. run_unfold. rewrite Hvpc. run_simpl. rewrite Hsub. run_simpl.
  repeat run_step.
  all: split; [intros d Hin; cbn [In] in Hin;
               repeat (destruct Hin as [<- | Hin]; [reflexivity|]); contradiction|].
  all: split; [eexists; reflexivity|].
  all: intros Hacc; try (split; reflexivity).
  all: exfalso.
  all: match goal with
       | H : RegisterResource _ ?d = Some _ |- _ =>
           rewrite (Hacc d) in H by (cbn [In]; tauto); discriminate H
       end.
Qed.

(** X3 at an engine whose subnet lookup fails. *)
Lemma failed_subnet_lookup_witness :
  snd (Run latin1_table no_subnets_engine) = Err (EngineError "no subnets")
  /\ map outcome_of (fst (Run latin1_table no_subnets_engine))
     = [ ("web-sg", None); ("app-cluster", None); ("task-exec-role", None);
         ("task-exec-policy", None) ].
Proof.
  split; [|reflexivity].
  refine (proj1 (proj2 (proj2 (failed_subnet_lookup latin1_table no_subnets_engine
                                 {| LookupVpc_Id := "vpc-1" |}
                                 (EngineError "no subnets") eq_refl eq_refl)) _)).
  intros d _. reflexivity.
Defined.

Lemma main_nil_when_accepted tbl engine vpc subnet :
  LookupVpc engine {| LookupVpc_Default := Some true |} = Ok vpc ->
  GetSubnetIds engine {| GetSubnetIds_VpcId := LookupVpc_Id vpc |} = Ok subnet ->
  (forall d, In d (declarations (fst (Run tbl engine))) ->
             type_of (decl_args d) <> pulumi.Service ->
             RegisterResource engine d = None) ->
  snd (Run tbl engine) = Ok tt.
Proof.
  intros Hvpc Hsub. run_unfold. rewrite Hvpc. run_simpl. rewrite Hsub. run_simpl.
  repeat run_step; intros Hacc; try reflexivity.
  all: exfalso.
  all: match goal with
       | H : RegisterResource _ ?d = Some _ |- _ =>
           rewrite (Hacc d) in H by (cbn [In]; tauto || (cbn; discriminate)); discriminate H
       end.
Qed.

Lemma image_declared_after_lookups tbl engine d a :
  In d (declarations (fst (Run tbl engine))) ->
  decl_args d = Image_args a ->
  exists vpc subnet,
    LookupVpc engine {| LookupVpc_Default := Some true |} = Ok vpc
    /\ GetSubnetIds engine {| GetSubnetIds_VpcId := LookupVpc_Id vpc |} = Ok subnet.
Proof. run_cases; intros Hin Hargs; pick_declaration Hin Hargs; eauto. Qed.


(** X5: the pass exports the DNS name of the load balancer under the name
    [url], once and as its last step, when it returns [nil]; it exports
    nothing when it returns an error. *)
Theorem export_follows_the_pass tbl engine :
  (snd (Run tbl engine) = Ok tt ->
   exports (fst (Run tbl engine)) = [("url", DnsName load_balancer_resource)]
   /\ exists before, fst (Run tbl engine)
                     = (before ++ [Exported "url" (DnsName load_balancer_resource)])%list)
  /\ (forall e, snd (Run tbl engine) = Err e -> exports (fst (Run tbl engine)) = []).
Proof.
  split.
  - run_cases; intros H; try discriminate H.
    all: split; [reflexivity|].
    all: match goal with
         | |- exists before, ?l = _ => exists (removelast l); reflexivity
         end.
  - intros e. run_cases; intros H; try discriminate H; reflexivity.
Qed.

(** ** The credentials *)

Lemma Split_nonempty s sep : Split s sep <> [].
Proof.
  destruct s as [|c s]; cbn [Split]; [discriminate|].
  destruct (Ascii.eqb c sep); [discriminate|].
  destruct (Split s sep); discriminate.
Qed.

Lemma Split_rejoin s : String.concat ":" (Split s ":") = s.
Proof.
  induction s as [|c s IH]; [reflexivity|].
  cbn [Split]. destruct (Ascii.eqb c ":") eqn:Hc.
  - apply Ascii.eqb_eq in Hc. subst c.
    destruct (Split s ":") as [|part parts] eqn:Hs; [destruct (Split_nonempty _ _ Hs)|].
    cbn [String.concat] in *. rewrite IH. reflexivity.
  - destruct (Split s ":") as [|part parts] eqn:Hs; [destruct (Split_nonempty _ _ Hs)|].
    destruct parts as [|part' parts].
    + cbn [String.concat] in *. rewrite IH. reflexivity.
    + cbn [String.concat append] in *. rewrite IH. reflexivity.
Qed.

Lemma Split_parts_no_colon s : forallb no_colon (Split s ":") = true.
Proof.
  induction s as [|c s IH]; [reflexivity|].
  cbn [Split]. destruct (Ascii.eqb c ":") eqn:Hc.
  - cbn [forallb no_colon]. exact IH.
  - destruct (Split s ":") as [|part parts]; cbn [forallb no_colon] in *.
    + rewrite Hc. reflexivity.
    + rewrite Hc. exact IH.
Qed.

Lemma Split_length s : length (Split s ":") = S (colons s).
Proof.
  induction s as [|c s IH]; [reflexivity|].
  cbn [Split colons]. destruct (Ascii.eqb c ":").
  - cbn [length]. rewrite IH. reflexivity.
  - destruct (Split s ":") as [|part parts]; cbn [length] in *; [discriminate IH | exact IH].
Qed.

(** X6: whatever the token decodes to, the credential step keeps all of
    it: the parts, joined by colons, are the decoded text; there is one
    part more than there are colons, and no part holds a colon. *)
Theorem credential_parts_rejoin engine rid token data :
  GetCredentials engine {| GetCredentials_RegistryId := rid |}
    = Ok {| GetCredentials_AuthorizationToken := token |} ->
  Base64.DecodeString token = Ok data ->
  exists parts,
    repoCreds_of engine rid = Ok parts
    /\ String.concat ":" parts = data
    /\ length parts = S (colons data)
    /\ forallb no_colon parts = true.
Proof.
  intros Hc Hd. exists (Split data ":").
  split; [apply (repoCreds_of_decoded _ _ _ _ Hc Hd)|].
  split; [apply Split_rejoin|]. split; [apply Split_length | apply Split_parts_no_colon].
Qed.

(** X6 at the token of [user:p1:p2]. *)
Lemma credential_parts_rejoin_witness :
  exists parts,
    repoCreds_of colon_engine "registry" = Ok parts
    /\ String.concat ":" parts = "user:p1:p2"
    /\ length parts = 3%nat.
Proof.
  destruct (credential_parts_rejoin colon_engine "registry" "dXNlcjpwMTpwMg==" "user:p1:p2"
              eq_refl eq_refl) as [parts [H1 [H2 [H3 _]]]].
  exists parts. repeat split; assumption.
Defined.

Lemma resolve_Index_beyond realized (o : StringArrayOutput) arr i :
  pulumi.resolve realized o = Ok arr ->
  (length arr <= i)%nat ->
  pulumi.resolve realized (pulumi.Index o (Z.of_nat i)) = Ok EmptyString.
Proof.
  intros Ho Hi. unfold pulumi.Index. cbn [pulumi.resolve]. rewrite Ho. cbn [result_bind].
  replace (Z.of_nat i <? Z.of_nat (length arr))%Z with false by (symmetry; apply Z.ltb_ge; lia).
  rewrite andb_false_r. reflexivity.
Qed.

(** X7: a token that decodes to a text without colon does not make the
    step fail: the text is the user name and the password is empty. *)
Theorem token_without_colon tbl engine realized d a token data :
  In d (declarations (fst (Run tbl engine))) ->
  decl_args d = Image_args a ->
  GetCredentials engine
    {| GetCredentials_RegistryId := realized repository_resource "RegistryId" |}
    = Ok {| GetCredentials_AuthorizationToken := token |} ->
  Base64.DecodeString token = Ok data ->
  no_colon data = true ->
  pulumi.resolve realized (ImageRegistry_Username (Image_Registry a)) = Ok data
  /\ pulumi.resolve realized (ImageRegistry_Password (Image_Registry a)) = Ok EmptyString.
Proof.
  intros Hin Hargs Hc Hd Hn.
  destruct (image_credentials tbl engine d a Hin Hargs) as [-> ->].
  assert (Hcreds : repoCreds_of engine (realized repository_resource "RegistryId") = Ok [data]).
  { rewrite (repoCreds_of_decoded _ _ _ _ Hc Hd), Split_no_colon by exact Hn. reflexivity. }
  split.
  - apply (resolve_Index realized _ [data] 0); [exact Hcreds | cbn; lia].
  - apply (resolve_Index_beyond realized _ [data] 1); [exact Hcreds | cbn; lia].
Qed.

(** X7 at the token of [nocolon]. *)
Lemma token_without_colon_witness :
  exists d a,
    In d (declarations (fst (Run latin1_table plain_token_engine)))
    /\ decl_args d = Image_args a
    /\ Base64.DecodeString "bm9jb2xvbg==" = Ok "nocolon"
    /\ pulumi.resolve test_realized (ImageRegistry_Username (Image_Registry a)) = Ok "nocolon"
    /\ pulumi.resolve test_realized (ImageRegistry_Password (Image_Registry a)) = Ok EmptyString.
Proof.
  do 2 eexists. split; [nth_declaration 8|]. split; [reflexivity|].
  split; [reflexivity|].
  refine (token_without_colon latin1_table plain_token_engine test_realized _ _
            "bm9jb2xvbg==" "nocolon" _ _ eq_refl eq_refl eq_refl);
    [nth_declaration 8 | reflexivity].
Defined.

(** X8: a failure of the credential endpoint does not stop the pass: the
    error is what the image's user name and password resolve to, and
    [main] returns [nil] when the engine accepts the declarations. *)
Theorem credential_failure_is_deferred tbl engine realized d a e :
  In d (declarations (fst (Run tbl engine))) ->
  decl_args d = Image_args a ->
  GetCredentials engine
    {| GetCredentials_RegistryId := realized repository_resource "RegistryId" |} = Err e ->
  pulumi.resolve realized (ImageRegistry_Username (Image_Registry a)) = Err e
  /\ pulumi.resolve realized (ImageRegistry_Password (Image_Registry a)) = Err e
  /\ ((forall d', In d' (declarations (fst (Run tbl engine))) ->
                  RegisterResource engine d' = None) ->
      snd (Run tbl engine) = Ok tt).
Proof.
  intros Hin Hargs Hc.
  destruct (image_declared_after_lookups tbl engine d a Hin Hargs)
    as [vpc [subnet [Hvpc Hsub]]].
  destruct (image_credentials tbl engine d a Hin Hargs) as [-> ->].
  assert (Hcreds : repoCreds_of engine (realized repository_resource "RegistryId") = Err e).
  { unfold repoCreds_of. rewrite Hc. reflexivity. }
  split; [apply resolve_Index_error; exact Hcreds|].
  split; [apply resolve_Index_error; exact Hcreds|].
  intros Hacc. apply (main_nil_when_accepted tbl engine vpc subnet Hvpc Hsub).
  intros d' Hin' _. apply Hacc, Hin'.
Qed.

(** X8 at an engine whose credential endpoint fails. *)
Lemma credential_failure_is_deferred_witness :
  exists d a,
    In d (declarations (fst (Run latin1_table no_credentials_engine)))
    /\ decl_args d = Image_args a
    /\ pulumi.resolve test_realized (ImageRegistry_Username (Image_Registry a))
       = Err (EngineError "no credentials")
    /\ snd (Run latin1_table no_credentials_engine) = Ok tt.
Proof.
  do 2 eexists. split; [nth_declaration 8|]. split; [reflexivity|].
  destruct (credential_failure_is_deferred latin1_table no_credentials_engine test_realized
              _ _ (EngineError "no credentials") ltac:(nth_declaration 8) eq_refl eq_refl)
    as [Hu [_ Hrun]].
  split; [exact Hu|]. apply Hrun. intros d' _. reflexivity.
Defined.

(** ** The decoder on the tokens of the credential endpoint *)

Section DecoderFacts.
Import Base64.

Lemma newline_not_digit c : is_newline c = true -> decodeMap c = 255.
Proof.
  unfold is_newline. intros H. apply orb_true_iff in H.
  destruct H as [H | H]; apply Ascii.eqb_eq in H; subst c; reflexivity.
Qed.

Lemma padChar_not_newline : is_newline padChar = false.
Proof. reflexivity. Qed.

Lemma skip_newlines_rest s : forall si si',
  fst (skip_newlines s si) = fst (skip_newlines s si').
Proof.
  induction s as [|c s IH]; intros si si'; cbn [skip_newlines]; [reflexivity|].
  destruct (is_newline c); [apply IH | reflexivity].
Qed.

Lemma skip_newlines_head s si :
  match fst (skip_newlines s si) with
  | EmptyString => True
  | String c _ => is_newline c = false
  end.
Proof.
  revert si. induction s as [|c s IH]; intros si; cbn [skip_newlines]; [exact I|].
  destruct (is_newline c) eqn:Hc; [apply IH | exact Hc].
Qed.

Lemma strip_skip_newlines s si :
  strip_newlines (fst (skip_newlines s si)) = strip_newlines s.
Proof.
  revert si. induction s as [|c s IH]; intros si; cbn [skip_newlines strip_newlines];
    [reflexivity|].
  destruct (is_newline c) eqn:Hc; [apply IH|].
  cbn [fst strip_newlines]. rewrite Hc. reflexivity.
Qed.

Lemma skip_newlines_stripped s si :
  fst (skip_newlines (strip_newlines s) si) = strip_newlines s.
Proof.
  induction s as [|c s IH]; cbn [strip_newlines]; [reflexivity|].
  destruct (is_newline c) eqn:Hc; [exact IH|].
  cbn [skip_newlines]. rewrite Hc. reflexivity.
Qed.

(** What remains after the line breaks at the head of [s], as the decoder
    and as the stripped text see it. *)
Lemma skipped_cases s si si' :
  (fst (skip_newlines s si) = EmptyString
   /\ fst (skip_newlines (strip_newlines s) si') = EmptyString)
  \/ (exists c r, is_newline c = false
        /\ fst (skip_newlines s si) = String c r
        /\ fst (skip_newlines (strip_newlines s) si') = String c (strip_newlines r)).
Proof.
  rewrite skip_newlines_stripped, <- (strip_skip_newlines s si).
  pose proof (skip_newlines_head s si) as Hh.
  destruct (fst (skip_newlines s si)) as [|c r].
  - left. split; reflexivity.
  - right. exists c, r. cbn [strip_newlines]. rewrite Hh. repeat split.
Qed.

Lemma tail_cases s si si' (A : Type) (a : A) (f g : Z -> error) :
  result_value (let '(rest3, si3) := skip_newlines s si in
                match rest3 with
                | EmptyString => Ok a
                | String _ _ => Err (f si3)
                end)
  = result_value (let '(rest3, si3) := skip_newlines (strip_newlines s) si' in
                  match rest3 with
                  | EmptyString => Ok a
                  | String _ _ => Err (g si3)
                  end).
Proof.
  destruct (skipped_cases s si si') as [[H1 H2] | [c [r [_ [H1 H2]]]]];
    destruct (skip_newlines s si) as [r1 s1];
    destruct (skip_newlines (strip_newlines s) si') as [r2 s2];
    cbn [fst] in H1, H2; subst r1 r2; reflexivity.
Qed.

Lemma decode_padding_stripped dbuf rest si si' :
  result_value (decode_padding dbuf rest si)
  = result_value (decode_padding dbuf (strip_newlines rest) si').
Proof.
  unfold decode_padding.
  destruct dbuf as [|d0 [|d1 [|d2 [|d3 dbuf]]]]; try reflexivity.
  - destruct (skipped_cases rest si si') as [[H1 H2] | [c [r [Hc [H1 H2]]]]];
      destruct (skip_newlines rest si) as [r1 s1];
      destruct (skip_newlines (strip_newlines rest) si') as [r2 s2];
      cbn [fst] in H1, H2; subst r1 r2; [reflexivity|].
    destruct (negb (Ascii.eqb c padChar)); [reflexivity|].
    apply (tail_cases r (s1 + 1) (s2 + 1) _ _ CorruptInputError CorruptInputError).
  - apply (tail_cases rest si si' _ _ CorruptInputError CorruptInputError).
Qed.

Lemma result_value_map (A B : Type) (f : A -> B) (r : result A) :
  result_value (result_map f r) = option_map f (result_value r).
Proof. destruct r; reflexivity. Qed.

(** Line breaks do not change what the decoder returns, the offset in an
    error apart. *)
Lemma decode_from_stripped s : forall si si' dbuf,
  result_value (decode_from s si dbuf)
  = result_value (decode_from (strip_newlines s) si' dbuf).
Proof.
  induction s as [|c s IH]; intros si si' dbuf.
  - cbn [strip_newlines decode_from]. destruct dbuf; reflexivity.
  - cbn [strip_newlines]. destruct (is_newline c) eqn:Hn.
    + cbn [decode_from]. rewrite (newline_not_digit c Hn). cbn [N.eqb negb].
      change (255 =? 255) with true. cbn [negb]. rewrite Hn. apply IH.
    + cbn [decode_from]. rewrite Hn.
      destruct (negb (decodeMap c =? 255)).
      * destruct dbuf as [|d0 [|d1 [|d2 [|d3 dbuf]]]]; try apply IH.
        rewrite !result_value_map. f_equal. apply IH.
      * destruct (negb (Ascii.eqb c padChar)); [reflexivity|].
        apply decode_padding_stripped.
Qed.

(** A byte that is no digit, no line break and no padding stops the
    decoder with its offset. *)
Lemma decode_from_foreign s1 c s2 : forall si dbuf,
  token_body s1 = true ->
  decodeMap c = 255 -> is_newline c = false -> Ascii.eqb c padChar = false ->
  decode_from (s1 ++ String c s2) si dbuf
  = Err (CorruptInputError (si + Z.of_nat (String.length s1))).
Proof.
  induction s1 as [|x s1 IH]; intros si dbuf Hb Hd Hn Hp.
  - cbn [append decode_from String.length]. rewrite Hd, Hn, Hp. cbn.
    rewrite Z.add_0_r. reflexivity.
  - cbn [token_body] in Hb. apply andb_true_iff in Hb. destruct Hb as [Hx Hb].
    cbn [append decode_from String.length].
    replace (si + Z.of_nat (S (String.length s1)))%Z
      with (si + 1 + Z.of_nat (String.length s1))%Z by lia.
    destruct (negb (decodeMap x =? 255)) eqn:Hdx.
    + destruct dbuf as [|d0 [|d1 [|d2 [|d3 dbuf]]]];
        rewrite IH by assumption; reflexivity.
    + cbn [orb] in Hx. rewrite Hx. apply IH; assumption.
Qed.

End DecoderFacts.

(** X9: line breaks in the token do not change the credentials: the step
    yields the same parts, or fails as well, as on the token without its
    carriage returns and line feeds. *)
Theorem line_breaks_in_token_ignored engine engine' rid token :
  GetCredentials engine {| GetCredentials_RegistryId := rid |}
    = Ok {| GetCredentials_AuthorizationToken := token |} ->
  GetCredentials engine' {| GetCredentials_RegistryId := rid |}
    = Ok {| GetCredentials_AuthorizationToken := strip_newlines token |} ->
  result_value (repoCreds_of engine rid) = result_value (repoCreds_of engine' rid).
Proof.
  intros H H'. unfold repoCreds_of. rewrite H, H'.
  cbn [result_bind GetCredentials_AuthorizationToken]. unfold Base64.DecodeString.
  pose proof (decode_from_stripped token 0 0 []) as Hs.
  destruct (Base64.decode_from token 0 []) as [data | e];
    destruct (Base64.decode_from (strip_newlines token) 0 []) as [data' | e'];
    cbn [result_value result_bind] in *; congruence.
Qed.

(** X9 at the token of [AWS:secrettoken] broken into lines. *)
Lemma line_breaks_in_token_ignored_witness :
  strip_newlines wrapped_token = "QVdTOnNlY3JldHRva2Vu"
  /\ result_value (repoCreds_of wrapped_token_engine "registry") = Some ["AWS"; "secrettoken"].
Proof.
  split; [reflexivity|].
  exact (eq_trans (line_breaks_in_token_ignored wrapped_token_engine demo_engine "registry"
                     wrapped_token eq_refl eq_refl) eq_refl).
Defined.

(** X10: a byte of the token that is no digit of the alphabet, no line
    break and no padding makes the step fail with the decoder's error at
    the offset of that byte, whatever follows it. *)
Theorem foreign_byte_in_token engine rid s1 c s2 :
  GetCredentials engine {| GetCredentials_RegistryId := rid |}
    = Ok {| GetCredentials_AuthorizationToken := s1 ++ String c s2 |} ->
  token_body s1 = true ->
  Base64.decodeMap c = 255 ->
  Base64.is_newline c = false ->
  c <> Base64.padChar ->
  repoCreds_of engine rid = Err (CorruptInputError (Z.of_nat (String.length s1))).
Proof.
  intros H Hb Hd Hn Hp. unfold repoCreds_of. rewrite H.
  cbn [result_bind GetCredentials_AuthorizationToken]. unfold Base64.DecodeString.
  rewrite decode_from_foreign; try assumption; [reflexivity|].
  apply Ascii.eqb_neq. exact Hp.
Qed.

(** X10 at a token with an asterisk as its fifth byte. *)
Lemma foreign_byte_in_token_witness :
  repoCreds_of (test_engine [] "QVdT*nNl" accept_all) "registry"
  = Err (CorruptInputError 4).
Proof.
  exact (foreign_byte_in_token (test_engine [] "QVdT*nNl" accept_all) "registry"
           "QVdT" "*"%char "nNl" eq_refl eq_refl eq_refl eq_refl ltac:(discriminate)).
Defined.

Lemma mod4_succ4 n : (S (S (S (S n))) mod 4 = n mod 4)%nat.
Proof.
  replace (S (S (S (S n)))) with (n + 1 * 4)%nat by lia. apply Nat.Div0.mod_add.
Qed.

Lemma decode_from_cut_short s : forall si dbuf,
  all_digits s = true ->
  (length dbuf < 4)%nat ->
  ((length dbuf + String.length s) mod 4 <> 0)%nat ->
  Base64.decode_from s si dbuf
  = Err (CorruptInputError
           (si + Z.of_nat (String.length s)
            - Z.of_nat ((length dbuf + String.length s) mod 4))).
Proof.
  induction s as [|c s IH]; intros si dbuf Hs Hlen Hmod.
  - cbn [Base64.decode_from String.length] in *. rewrite Nat.add_0_r in *.
    rewrite Nat.mod_small in * by exact Hlen.
    destruct dbuf as [|d dbuf]; [contradiction|].
    f_equal. f_equal. lia.
  - cbn [all_digits] in Hs. apply andb_true_iff in Hs. destruct Hs as [Hc Hs].
    cbn [Base64.decode_from String.length]. rewrite Hc.
    destruct dbuf as [|d0 [|d1 [|d2 [|d3 dbuf]]]]; cbn [length app String.length] in *; try lia;
      rewrite ?Nat.add_succ_r in Hmod |- *; cbn [Nat.add] in Hmod |- *.
    + rewrite (IH (si + 1)%Z [Base64.decodeMap c] Hs) by (cbn [length Nat.add]; (lia || exact Hmod)).
      cbn [length Nat.add]. f_equal. f_equal. lia.
    + rewrite (IH (si + 1)%Z [d0; Base64.decodeMap c] Hs)
        by (cbn [length Nat.add]; (lia || exact Hmod)).
      cbn [length Nat.add]. f_equal. f_equal. lia.
    + rewrite (IH (si + 1)%Z [d0; d1; Base64.decodeMap c] Hs)
        by (cbn [length Nat.add]; (lia || exact Hmod)).
      cbn [length Nat.add]. f_equal. f_equal. lia.
    + rewrite mod4_succ4 in *.
      rewrite (IH (si + 1)%Z [] Hs) by (cbn [length Nat.add]; (lia || exact Hmod)).
      cbn [length Nat.add result_map]. f_equal. f_equal. lia.
Qed.

(** X11: a token of digits whose length is no multiple of four makes the
    step fail with the decoder's error at the start of the incomplete
    group. *)
Theorem token_cut_short engine rid token :
  GetCredentials engine {| GetCredentials_RegistryId := rid |}
    = Ok {| GetCredentials_AuthorizationToken := token |} ->
  all_digits token = true ->
  (String.length token mod 4 <> 0)%nat ->
  repoCreds_of engine rid
  = Err (CorruptInputError (Z.of_nat (4 * (String.length token / 4)))).
Proof.
  intros H Hd Hm. unfold repoCreds_of. rewrite H.
  cbn [result_bind GetCredentials_AuthorizationToken]. unfold Base64.DecodeString.
  rewrite (decode_from_cut_short token 0 [] Hd) by (cbn [length]; (lia || exact Hm)).
  cbn [length Nat.add result_bind]. f_equal. f_equal.
  pose proof (Nat.div_mod_eq (String.length token) 4). lia.
Qed.

(** X11 at a token of seven digits. *)
Lemma token_cut_short_witness :
  repoCreds_of (test_engine [] "QVdTOnN" accept_all) "registry"
  = Err (CorruptInputError 4).
Proof.
  exact (token_cut_short (test_engine [] "QVdTOnN" accept_all) "registry" "QVdTOnN"
           eq_refl eq_refl ltac:(cbv; discriminate)).
Defined.

(** ** The resource graph *)

Ltac no_subnet_refs :=
  unfold deps;
  cbn [args_refs decl_args decl_dependsOn
       LoadBalancer_Subnets LoadBalancer_SecurityGroups
       Service_Cluster Service_DesiredCount Service_LaunchType
       Service_TaskDefinition Service_NetworkConfiguration Service_LoadBalancers
       ServiceNetworkConfiguration_AssignPublicIp ServiceNetworkConfiguration_Subnets
       ServiceNetworkConfiguration_SecurityGroups];
  rewrite ?toPulumiStringArray_map, ?refs_all_strings.

Ltac schedule_check :=
  cbn [valid_schedule graph declarations map forallb existsb app];
  no_subnet_refs; reflexivity.

Ltac distinct :=
  repeat (constructor; [cbn [In]; intuition discriminate|]); constructor.


Lemma mem_complete r l : In r l -> mem r l = true.
Proof.
  intros H. unfold mem. apply existsb_exists. exists r. split; [exact H|].
  apply resource_eqb_refl.
Qed.

Lemma deps_are_edges tbl engine d r :
  In d (declarations (fst (Run tbl engine))) ->
  In r (deps d) ->
  In (r, decl_resource d) data_edges
  \/ (r = listener_resource /\ decl_resource d = service_resource).
Proof.
  run_cases; intros Hin; cbn [In] in Hin.
  all: repeat (destruct Hin as [<- | Hin];
               [no_subnet_refs; cbn; intros H;
                repeat (destruct H as [<- | H]; [tauto|]); contradiction|]).
  all: contradiction.
Qed.






(** X15: nothing is ordered after the policy attachment of the execution
    role: no declaration depends on it, and when the pass goes through the
    engine may realize the task definition and the service before it. *)
Theorem policy_attachment_unordered tbl engine vpc subnet :
  LookupVpc engine {| LookupVpc_Default := Some true |} = Ok vpc ->
  GetSubnetIds engine {| GetSubnetIds_VpcId := LookupVpc_Id vpc |} = Ok subnet ->
  (forall d, RegisterResource engine d = None) ->
  (forall d, In d (graph (fst (Run tbl engine))) -> ~ In policy_resource (deps d))
  /\ valid_schedule (graph (fst (Run tbl engine))) [] policy_last = true.
Proof.
  intros Hvpc Hsub Hacc. split.
  - intros d Hin H. apply graph_declarations in Hin.
    apply (deps_are_edges tbl engine d policy_resource Hin) in H.
    destruct H as [H | [H _]]; [|discriminate H].
    cbn [In data_edges] in H.
    repeat (destruct H as [H | H]; [discriminate H|]). exact H.
  - run_unfold. rewrite Hvpc. run_simpl. rewrite Hsub. run_simpl.
    repeat (rewrite Hacc; run_simpl).
    unfold policy_last. schedule_check.
Qed.

(** X15 at the engine of the examples. *)
Lemma policy_attachment_unordered_witness :
  valid_schedule (graph (fst (Run latin1_table demo_engine))) [] policy_last = true.
Proof.
  apply (policy_attachment_unordered latin1_table demo_engine
           {| LookupVpc_Id := "vpc-1" |} {| GetSubnetIds_Ids := ["subnet-a"; "subnet-b"] |}
           eq_refl eq_refl (fun _ => eq_refl)).
Defined.

(** X16: no two declarations of a run are of the same resource: a logical
    name is used once. *)
Theorem declared_resources_distinct tbl engine :
  NoDup (map decl_resource (declarations (fst (Run tbl engine)))).
Proof. run_cases; cbn [map decl_resource decl_args decl_name type_of]; distinct. Qed.

(** X17: the resources a run declares are the first resources of the program,
    in the program's order; a run that returns [nil] declares them all. *)
Theorem declarations_are_a_prefix tbl engine :
  exists n,
    map decl_resource (declarations (fst (Run tbl engine))) = firstn n all_resources
    /\ (snd (Run tbl engine) = Ok tt -> n = 11%nat).
Proof.
  run_cases.
  all: cbn [map decl_resource decl_args decl_name type_of].
  all: first [ exists 0%nat; split; [reflexivity | discriminate]
             | exists 1%nat; split; [reflexivity | discriminate]
             | exists 2%nat; split; [reflexivity | discriminate]
             | exists 3%nat; split; [reflexivity | discriminate]
             | exists 4%nat; split; [reflexivity | discriminate]
             | exists 5%nat; split; [reflexivity | discriminate]
             | exists 6%nat; split; [reflexivity | discriminate]
             | exists 7%nat; split; [reflexivity | discriminate]
             | exists 8%nat; split; [reflexivity | discriminate]
             | exists 9%nat; split; [reflexivity | discriminate]
             | exists 10%nat; split; [reflexivity | discriminate]
             | exists 11%nat; split; reflexivity ].
Qed.

(** ** The arguments across declarations *)

(** X18: the listener forwards to the target group that the service
    registers its containers in, the one declared, and listens on the port
    of that target group, which is the container port of the service's
    attachment. *)
Theorem listener_forwards_to_service tbl engine tgd tga ld la sd sa :
  In tgd (declarations (fst (Run tbl engine))) -> decl_args tgd = TargetGroup_args tga ->
  In ld (declarations (fst (Run tbl engine))) -> decl_args ld = Listener_args la ->
  In sd (declarations (fst (Run tbl engine))) -> decl_args sd = Service_args sa ->
  exists action attachment,
    Listener_DefaultActions la = [action]
    /\ Service_LoadBalancers sa = [attachment]
    /\ ListenerDefaultAction_Type action = pulumi.String "forward"
    /\ ListenerDefaultAction_TargetGroupArn action = Arn (decl_resource tgd)
    /\ ServiceLoadBalancer_TargetGroupArn attachment = Arn (decl_resource tgd)
    /\ Listener_Port la = TargetGroup_Port tga
    /\ ServiceLoadBalancer_ContainerPort attachment = TargetGroup_Port tga.
Proof.
  run_cases; intros H1 A1 H2 A2 H3 A3;
    pick_declaration H3 A3; pick_declaration H2 A2; pick_declaration H1 A1;
    injection A1 as <-; injection A2 as <-; injection A3 as <-;
    do 2 eexists; repeat split.
Qed.

(** X18 at the engine of the examples. *)
Lemma listener_forwards_to_service_witness :
  exists tgd ld la sd sa action attachment,
    In tgd (declarations (fst (Run latin1_table demo_engine)))
    /\ In ld (declarations (fst (Run latin1_table demo_engine)))
    /\ decl_args ld = Listener_args la
    /\ In sd (declarations (fst (Run latin1_table demo_engine)))
    /\ decl_args sd = Service_args sa
    /\ Listener_DefaultActions la = [action]
    /\ Service_LoadBalancers sa = [attachment]
    /\ ListenerDefaultAction_TargetGroupArn action = Arn (decl_resource tgd)
    /\ ServiceLoadBalancer_TargetGroupArn attachment = Arn (decl_resource tgd).
Proof.
  destruct (listener_forwards_to_service latin1_table demo_engine _ _ _ _ _ _
              ltac:(nth_declaration 5) eq_refl ltac:(nth_declaration 6) eq_refl
              ltac:(nth_declaration 10) eq_refl)
    as [action [attachment [H1 [H2 [_ [H3 [H4 _]]]]]]].
  do 5 eexists. exists action, attachment.
  split; [nth_declaration 5|]. split; [nth_declaration 6|]. split; [reflexivity|].
  split; [nth_declaration 10|]. split; [reflexivity|].
  repeat split; assumption.
Defined.

(** X19: the load balancer and the tasks of the service sit in the same
    subnets and behind the same security group, the one declared. *)
Theorem service_shares_network tbl engine gd ga ld la sd sa :
  In gd (declarations (fst (Run tbl engine))) -> decl_args gd = SecurityGroup_args ga ->
  In ld (declarations (fst (Run tbl engine))) -> decl_args ld = LoadBalancer_args la ->
  In sd (declarations (fst (Run tbl engine))) -> decl_args sd = Service_args sa ->
  exists nc,
    Service_NetworkConfiguration sa = Some nc
    /\ ServiceNetworkConfiguration_Subnets nc = LoadBalancer_Subnets la
    /\ ServiceNetworkConfiguration_SecurityGroups nc = LoadBalancer_SecurityGroups la
    /\ LoadBalancer_SecurityGroups la = [ID (decl_resource gd)].
Proof.
  run_cases; intros H1 A1 H2 A2 H3 A3;
    pick_declaration H3 A3; pick_declaration H2 A2; pick_declaration H1 A1;
    injection A1 as <-; injection A2 as <-; injection A3 as <-;
    eexists; repeat split.
Qed.

(** X19 at the engine of the examples. *)
Lemma service_shares_network_witness :
  exists gd ld la sd sa nc,
    In gd (declarations (fst (Run latin1_table demo_engine)))
    /\ In ld (declarations (fst (Run latin1_table demo_engine)))
    /\ decl_args ld = LoadBalancer_args la
    /\ In sd (declarations (fst (Run latin1_table demo_engine)))
    /\ decl_args sd = Service_args sa
    /\ Service_NetworkConfiguration sa = Some nc
    /\ ServiceNetworkConfiguration_Subnets nc = LoadBalancer_Subnets la
    /\ ServiceNetworkConfiguration_SecurityGroups nc = [ID (decl_resource gd)].
Proof.
  destruct (service_shares_network latin1_table demo_engine _ _ _ _ _ _
              ltac:(nth_declaration 0) eq_refl ltac:(nth_declaration 4) eq_refl
              ltac:(nth_declaration 10) eq_refl)
    as [nc [H1 [H2 [H3 H4]]]].
  do 5 eexists. exists nc.
  split; [nth_declaration 0|]. split; [nth_declaration 4|]. split; [reflexivity|].
  split; [nth_declaration 10|]. split; [reflexivity|].
  split; [exact H1|]. split; [exact H2|]. exact (eq_trans H3 H4).
Defined.

(** X20: the service runs the declared task definition in the declared
    cluster, with a launch type that the task definition requires, and
    gives the network configuration that the network mode [awsvpc] of the
    task definition needs. *)
Theorem service_runs_the_task tbl engine cd td ta sd sa :
  In cd (declarations (fst (Run tbl engine))) -> decl_args cd = Cluster_args ->
  In td (declarations (fst (Run tbl engine))) -> decl_args td = TaskDefinition_args ta ->
  In sd (declarations (fst (Run tbl engine))) -> decl_args sd = Service_args sa ->
  Service_Cluster sa = Arn (decl_resource cd)
  /\ Service_TaskDefinition sa = Arn (decl_resource td)
  /\ In (Service_LaunchType sa) (TaskDefinition_RequiresCompatibilities ta)
  /\ TaskDefinition_NetworkMode ta = pulumi.String "awsvpc"
  /\ Service_NetworkConfiguration sa <> None.
Proof.
  run_cases; intros H1 A1 H2 A2 H3 A3;
    pick_declaration H3 A3; pick_declaration H2 A2; pick_declaration H1 A1;
    injection A2 as <-; injection A3 as <-;
    repeat split; try (left; reflexivity); discriminate.
Qed.

(** X20 at the engine of the examples. *)
Lemma service_runs_the_task_witness :
  exists cd td sd sa,
    In cd (declarations (fst (Run latin1_table demo_engine)))
    /\ In td (declarations (fst (Run latin1_table demo_engine)))
    /\ In sd (declarations (fst (Run latin1_table demo_engine)))
    /\ decl_args sd = Service_args sa
    /\ Service_Cluster sa = Arn (decl_resource cd)
    /\ Service_TaskDefinition sa = Arn (decl_resource td).
Proof.
  destruct (service_runs_the_task latin1_table demo_engine _ _ _ _ _
              ltac:(nth_declaration 1) eq_refl ltac:(nth_declaration 9) eq_refl
              ltac:(nth_declaration 10) eq_refl)
    as [H1 [H2 _]].
  do 4 eexists.
  split; [nth_declaration 1|]. split; [nth_declaration 9|].
  split; [nth_declaration 10|]. split; [reflexivity|].
  split; [exact H1 | exact H2].
Defined.

(** X21: the execution role: its assume-role policy is a readable JSON
    document with the one statement that lets the ECS tasks service assume
    the role; the managed policy is attached to that role by its name, and
    the task definition executes under that role. *)
Theorem execution_role_wiring tbl engine realized rd ra pd pa td ta :
  In rd (declarations (fst (Run tbl engine))) -> decl_args rd = Role_args ra ->
  In pd (declarations (fst (Run tbl engine))) -> decl_args pd = RolePolicyAttachment_args pa ->
  In td (declarations (fst (Run tbl engine))) -> decl_args td = TaskDefinition_args ta ->
  result_map Json.parse (pulumi.resolve realized (Role_AssumeRolePolicy ra)) = Ok (Some trust_policy)
  /\ RolePolicyAttachment_Role pa = Name (decl_resource rd)
  /\ TaskDefinition_ExecutionRoleArn ta = Arn (decl_resource rd).
Proof.
  run_cases; intros H1 A1 H2 A2 H3 A3;
    pick_declaration H3 A3; pick_declaration H2 A2; pick_declaration H1 A1;
    injection A1 as <-; injection A2 as <-; injection A3 as <-;
    repeat split.
Qed.

(** X21 at the engine of the examples. *)
Lemma execution_role_wiring_witness :
  exists rd ra pd pa td ta,
    In rd (declarations (fst (Run latin1_table demo_engine)))
    /\ decl_args rd = Role_args ra
    /\ In pd (declarations (fst (Run latin1_table demo_engine)))
    /\ decl_args pd = RolePolicyAttachment_args pa
    /\ In td (declarations (fst (Run latin1_table demo_engine)))
    /\ decl_args td = TaskDefinition_args ta
    /\ result_map Json.parse (pulumi.resolve test_realized (Role_AssumeRolePolicy ra))
       = Ok (Some trust_policy)
    /\ RolePolicyAttachment_Role pa = Name (decl_resource rd)
    /\ TaskDefinition_ExecutionRoleArn ta = Arn (decl_resource rd).
Proof.
  destruct (execution_role_wiring latin1_table demo_engine test_realized _ _ _ _ _ _
              ltac:(nth_declaration 2) eq_refl ltac:(nth_declaration 3) eq_refl
              ltac:(nth_declaration 9) eq_refl)
    as [H1 [H2 H3]].
  do 6 eexists.
  split; [nth_declaration 2|]. split; [reflexivity|].
  split; [nth_declaration 3|]. split; [reflexivity|].
  split; [nth_declaration 9|]. split; [reflexivity|].
  split; [exact H1|]. split; [exact H2 | exact H3].
Defined.

(** X22: the security group and the target group are in the network that the
    lookup of the default network returned, and the subnets of the load
    balancer are the ones looked up in that network. *)
Theorem one_network tbl engine vpc :
  LookupVpc engine {| LookupVpc_Default := Some true |} = Ok vpc ->
  (forall d a, In d (declarations (fst (Run tbl engine))) ->
               decl_args d = SecurityGroup_args a ->
               SecurityGroup_VpcId a = pulumi.String (LookupVpc_Id vpc))
  /\ (forall d a, In d (declarations (fst (Run tbl engine))) ->
                  decl_args d = TargetGroup_args a ->
                  TargetGroup_VpcId a = pulumi.String (LookupVpc_Id vpc))
  /\ (forall d a, In d (declarations (fst (Run tbl engine))) ->
                  decl_args d = LoadBalancer_args a ->
                  exists subnet,
                    GetSubnetIds engine {| GetSubnetIds_VpcId := LookupVpc_Id vpc |} = Ok subnet
                    /\ LoadBalancer_Subnets a = map pulumi.String (GetSubnetIds_Ids subnet)).
Proof.
  intros Hvpc. run_unfold. rewrite Hvpc. run_simpl. repeat run_step.
  all: split; [|split]; intros d a Hin Hargs; pick_declaration Hin Hargs;
    injection Hargs as <-; cbn; rewrite ?toPulumiStringArray_map; eauto.
Qed.

(** X22 at the target group of the engine of the examples. *)
Lemma one_network_witness :
  exists d a,
    In d (declarations (fst (Run latin1_table demo_engine)))
    /\ decl_args d = TargetGroup_args a
    /\ TargetGroup_VpcId a = pulumi.String "vpc-1".
Proof.
  pose proof (proj1 (proj2 (one_network latin1_table demo_engine {| LookupVpc_Id := "vpc-1" |}
                              eq_refl)) _ _ ltac:(nth_declaration 5) eq_refl) as H.
  do 2 eexists. split; [nth_declaration 5|]. split; [reflexivity|]. exact H.
Defined.

(** X23: the image is built from the directory above the program and pushed to
    the declared repository: its name and the server of its registry are
    the URL of that repository, and the task definition's document is made
    from the name of the image that was pushed. *)
Theorem image_pushed_to_repository tbl engine rd imd ima td ta :
  In rd (declarations (fst (Run tbl engine))) -> decl_args rd = Repository_args ->
  In imd (declarations (fst (Run tbl engine))) -> decl_args imd = Image_args ima ->
  In td (declarations (fst (Run tbl engine))) -> decl_args td = TaskDefinition_args ta ->
  Image_ImageName ima = RepositoryUrl (decl_resource rd)
  /\ ImageRegistry_Server (Image_Registry ima) = RepositoryUrl (decl_resource rd)
  /\ DockerBuild_Context (Image_Build ima) = pulumi.String ".."
  /\ TaskDefinition_ContainerDefinitions ta
     = ApplyT (ImageName_of (decl_resource imd)) (containerDef_of tbl).
Proof.
  run_cases; intros H1 A1 H2 A2 H3 A3;
    pick_declaration H3 A3; pick_declaration H2 A2; pick_declaration H1 A1;
    injection A2 as <-; injection A3 as <-;
    repeat split.
Qed.

(** X23 at the engine of the examples. *)
Lemma image_pushed_to_repository_witness :
  exists rd imd ima td,
    In rd (declarations (fst (Run latin1_table demo_engine)))
    /\ In imd (declarations (fst (Run latin1_table demo_engine)))
    /\ decl_args imd = Image_args ima
    /\ In td (declarations (fst (Run latin1_table demo_engine)))
    /\ Image_ImageName ima = RepositoryUrl (decl_resource rd)
    /\ ImageRegistry_Server (Image_Registry ima) = RepositoryUrl (decl_resource rd).
Proof.
  destruct (image_pushed_to_repository latin1_table demo_engine _ _ _ _ _
              ltac:(nth_declaration 7) eq_refl ltac:(nth_declaration 8) eq_refl
              ltac:(nth_declaration 9) eq_refl)
    as [H1 [H2 _]].
  do 4 eexists.
  split; [nth_declaration 7|]. split; [nth_declaration 8|]. split; [reflexivity|].
  split; [nth_declaration 9|]. split; [exact H1 | exact H2].
Defined.

(** ** The document *)

Lemma appendEscapedRune_printable tbl c :
  (0x20 <=? byte_val c) && (byte_val c <=? 0x7E) && plain c = true ->
  appendEscapedRune tbl (byte_val c) = String c EmptyString.
Proof.
  intros H. destruct c as [[] [] [] [] [] [] [] []]; try discriminate H; reflexivity.
Qed.

Lemma quote_loop_printable tbl s :
  printable_plain s = true -> quote_loop tbl s 0 = s.
Proof.
  induction s as [|c s IH]; cbn [printable_plain]; intros H; [reflexivity|].
  apply andb_true_iff in H. destruct H as [Hc Hs].
  assert (Hlt : byte_val c < 0x80).
  { apply andb_true_iff in Hc. destruct Hc as [Hc _].
    apply andb_true_iff in Hc. destruct Hc as [_ Hc]. apply N.leb_le in Hc. lia. }
  rewrite quote_loop_ascii by exact Hlt.
  rewrite appendEscapedRune_printable by exact Hc.
  rewrite (IH Hs). reflexivity.
Qed.

(** X24: a reference of printable ASCII bytes without double quote and
    backslash stands in the document as it is, between two double quotes. *)
Theorem plain_reference_verbatim tbl name :
  printable_plain name = true ->
  containerDef_of tbl name
  = Ok (doc_prefix ++ String quote_char name ++ String quote_char doc_suffix).
Proof.
  intros H. unfold containerDef_of.
  rewrite Sprintf_fmtstr. unfold Quote.
  rewrite (quote_loop_printable tbl name H).
  cbn [append]. rewrite append_assoc. reflexivity.
Qed.

(** X24 at a reference. *)
Lemma plain_reference_verbatim_witness :
  printable_plain "repo/my-image:v1" = true
  /\ containerDef_of latin1_table "repo/my-image:v1"
     = Ok (doc_prefix ++ String quote_char "repo/my-image:v1" ++ String quote_char doc_suffix).
Proof.
  split; [reflexivity|].
  apply (plain_reference_verbatim latin1_table "repo/my-image:v1"). reflexivity.
Defined.

(** X25: two different references of the class of C5 have different
    documents: the document names its image. *)
Theorem distinct_references_distinct_documents tbl name name' :
  json_safe name = true ->
  json_safe name' = true ->
  name <> name' ->
  containerDef_of tbl name <> containerDef_of tbl name'.
Proof.
  intros H H' Hne Heq. apply Hne.
  assert (E : Sprintf tbl fmtstr [name] = Sprintf tbl fmtstr [name']).
  { exact (f_equal (fun r => match r with Ok d => d | Err _ => EmptyString end) Heq). }
  assert (V : Some (doc_value name) = Some (doc_value name')).
  { exact (eq_trans (eq_sym (parse_Sprintf_safe tbl name H))
             (eq_trans (f_equal Json.parse E) (parse_Sprintf_safe tbl name' H'))). }
  unfold doc_value in V. injection V as V. exact V.
Qed.

(** X25 at two tags of one repository. *)
Lemma distinct_references_distinct_documents_witness :
  json_safe "repo/my-image:v1" = true
  /\ json_safe "repo/my-image:v2" = true
  /\ containerDef_of latin1_table "repo/my-image:v1"
     <> containerDef_of latin1_table "repo/my-image:v2".
Proof.
  split; [reflexivity|]. split; [reflexivity|].
  apply (distinct_references_distinct_documents latin1_table
           "repo/my-image:v1" "repo/my-image:v2"); [reflexivity | reflexivity | discriminate].
Defined.

(** ** The subnet identifiers *)

(** X26: [toPulumiStringArray] keeps every string, in order, as a known value:
    the array has the length of the list, it is made piecewise, its values
    are the list, and it reads no resource. *)
Theorem toPulumiStringArray_values realized a b :
  toPulumiStringArray (a ++ b) = (toPulumiStringArray a ++ toPulumiStringArray b)%list
  /\ length (toPulumiStringArray a) = length a
  /\ pulumi.resolve_all realized (toPulumiStringArray a) = Ok a
  /\ refs_all (toPulumiStringArray a) = []
  /\ toPulumiStringArray [] = [].
Proof.
  rewrite !toPulumiStringArray_map. split; [apply map_app|].
  split; [apply length_map|]. split; [apply resolve_all_strings|].
  split; [apply refs_all_strings | reflexivity].
Qed.
